(** * pdf-to-json-extractor: the page classification pipeline of [src/parser.py]

    A shallow embedding of [PDFParser] and the properties its specification
    states about it.

    Modelling conventions.
    - Python [str] is a Rocq [string]; a character is a code point below 256,
      so [strip] and [lower] follow Python on Latin-1 text.
    - Python [float] coordinates and font sizes are rationals ([Q]): every
      finite float is a rational and the comparisons agree.  The one
      arithmetic operation of the pipeline, [page_height - y], is taken exact.
    - A [dict] with a fixed set of keys is a record; a key that may be absent
      ([dict.get], [del]) is an [option] field.
    - The parser object and the document handle live in a [World] that is
      threaded through a state-and-exception monad.  As in Python, a raised
      exception keeps every mutation made before it.
    - The collaborators (PyMuPDF, Camelot) are data: what they answer for a
      page is a field of the page, and an answer may be an exception. *)

From Stdlib Require Import ZArith QArith Qround Lqa List String Ascii Bool Lia.
From Stdlib Require Import Permutation Sorted DecimalString.
Import ListNotations.

Set Implicit Arguments.

(* ===================================================================== *)
(** * Python strings *)
(* ===================================================================== *)

Module PyStr.

Local Open Scope string_scope.

(** [str.isspace] on one character, for code points below 256. *)
Definition isspace (c : ascii) : bool :=
  let n := N_of_ascii c in
  (((9 <=? n) && (n <=? 13)) || ((28 <=? n) && (n <=? 32))
   || (n =? 133) || (n =? 160))%N.

(** [str.lower] on one character, for code points below 256. *)
Definition lower_char (c : ascii) : ascii :=
  let n := N_of_ascii c in
  if (((65 <=? n) && (n <=? 90))
      || ((192 <=? n) && (n <=? 222) && negb (n =? 215)))%N
  then ascii_of_N (n + 32) else c.

Fixpoint lower (s : string) : string :=
  match s with
  | EmptyString => EmptyString
  | String c r => String (lower_char c) (lower r)
  end.

Fixpoint lstrip (s : string) : string :=
  match s with
  | EmptyString => EmptyString
  | String c r => if isspace c then lstrip r else s
  end.

Fixpoint rstrip (s : string) : string :=
  match s with
  | EmptyString => EmptyString
  | String c r =>
      match rstrip r with
      | EmptyString => if isspace c then EmptyString else String c EmptyString
      | r' => String c r'
      end
  end.

(** [s.strip()] *)
Definition strip (s : string) : string := lstrip (rstrip s).

Fixpoint startswith (pre s : string) : bool :=
  match pre, s with
  | EmptyString, _ => true
  | String a pre', String b s' => Ascii.eqb a b && startswith pre' s'
  | String _ _, EmptyString => false
  end.

(** [needle in hay] *)
Fixpoint contains (needle hay : string) : bool :=
  startswith needle hay
  || match hay with
     | EmptyString => false
     | String _ r => contains needle r
     end.

(** ["".join(parts)] *)
Definition join_empty (parts : list string) : string := String.concat "" parts.

(** The one-character string ["\n"]. *)
Definition nl : string := String (ascii_of_nat 10) EmptyString.

(** Truthiness of a [str]. *)
Definition truthy (s : string) : bool :=
  match s with EmptyString => false | String _ _ => true end.

(** What "no leading or trailing whitespace" says, without [strip]. *)
Definition starts_with_space (s : string) : bool :=
  match s with EmptyString => false | String c _ => isspace c end.

Fixpoint ends_with_space (s : string) : bool :=
  match s with
  | EmptyString => false
  | String c EmptyString => isspace c
  | String _ r => ends_with_space r
  end.

Definition trimmed (s : string) : bool :=
  negb (starts_with_space s) && negb (ends_with_space s).

End PyStr.

(* ===================================================================== *)
(** * Numbers *)
(* ===================================================================== *)

(** [round(x)] with one argument: the nearest integer, a tie going to the
    even neighbour. *)
Definition py_round (x : Q) : Z :=
  let f := Qfloor x in
  match (x - inject_Z f ?= 1 # 2)%Q with
  | Lt => f
  | Gt => (f + 1)%Z
  | Eq => if Z.even f then f else (f + 1)%Z
  end.

(* ===================================================================== *)
(** * The text dictionaries of PyMuPDF *)
(* ===================================================================== *)

(** [fitz.Rect] and the 4-tuples it is built from and turned into. *)
Record Rect := mkRect { x0 : Q; y0 : Q; x1 : Q; y1 : Q }.

(** A span always carries ['size'] and ['font']; ['text'] is read with
    [span.get('text', '')]. *)
Record Span := mkSpan {
  span_text : option string;
  span_size : Q;
  span_font : string
}.

(** ['spans'] is read with [line.get('spans', [])]. *)
Record Line := mkLine { line_spans : option (list Span) }.

(** ['type'] is read with [block.get('type')], ['lines'] with
    [block.get('lines', [])]; ['bbox'] is always there. *)
Record Block := mkBlock {
  block_type : option Z;
  block_bbox : Rect;
  block_lines : option (list Line)
}.

Definition get_default {A} (o : option A) (d : A) : A :=
  match o with Some a => a | None => d end.

(* ===================================================================== *)
(** * Style classifier and text normaliser *)
(* ===================================================================== *)

(** The three answers ['h1'], ['h2'] and ['p']. *)
Inductive style := Style_h1 | Style_h2 | Style_p.

Definition is_bold (span : Span) : bool :=
  PyStr.contains "bold" (PyStr.lower (span_font span)).

Definition get_text_style (span : Span) : style :=
  let font_size := py_round (span_size span) in
  if (15 <? font_size)%Z then Style_h1
  else if (12 <=? font_size)%Z && is_bold span then Style_h2
  else if (12 <? font_size)%Z then Style_h2
  else Style_p.

Definition line_text (line : Line) : string :=
  PyStr.join_empty
    (map (fun span => get_default (span_text span) ""%string)
         (get_default (line_spans line) [])).

(** The text of each line of a block, before any trimming. *)
Definition line_texts (block : Block) : list string :=
  map line_text (get_default (block_lines block) []).

Definition extract_clean_text (block : Block) : string :=
  let full_text :=
    fold_left
      (fun full_text line =>
         (full_text ++ (PyStr.strip (line_text line) ++ PyStr.nl))%string)
      (get_default (block_lines block) []) ""%string in
  PyStr.strip full_text.

(* ===================================================================== *)
(** * Collaborators *)
(* ===================================================================== *)

Inductive exn := Exception (msg : string).

(** What a call answers: a value, or an exception caught by
    [except Exception]. *)
Inductive result (A : Type) := Ok (a : A) | Raise (e : exn).
Arguments Ok {A} a.
Arguments Raise {A} e.

(** [table.df]: a rectangular frame of cell strings.  [shape] is
    (rows, columns); a frame without rows still has its columns. *)
Record DataFrame := mkDataFrame {
  df_columns : nat;
  df_values : list (list string)
}.

Definition shape (df : DataFrame) : nat * nat :=
  (List.length (df_values df), df_columns df).

(** A Camelot table: [table.df] and [table._bbox]. *)
Record Table := mkTable {
  table_df : DataFrame;
  table_bbox : Q * Q * Q * Q
}.

(** An entry of [page.get_images(full=True)], with what
    [page.get_image_bbox] answers for it. *)
Record Image := mkImage { image_bbox : result Rect }.

(** A [fitz.Page]: [page.number], [page.rect.height], and the answers of
    [page.get_images(full=True)] and [page.get_text("dict").get("blocks", [])]. *)
Record Page := mkPage {
  pg_number : nat;
  pg_rect_height : Q;
  pg_get_images : result (list Image);
  pg_get_text_blocks : result (list Block)
}.

(** A [fitz.Document]: [doc.name] and the pages [doc[0]], [doc[1]], ... *)
Record Document := mkDocument {
  doc_name : string;
  doc_pages : list Page
}.

(** Everything the parser asks of the outside: the geometry of [fitz.Rect],
    the file system, [fitz.open], and [camelot.read_pdf] per path and
    1-based page number. *)
Class Collaborators := {
  intersects : Rect -> Rect -> bool;
  is_empty : Rect -> bool;
  os_path_exists : string -> bool;
  fitz_open : string -> result Document;
  camelot_read_pdf : string -> nat -> result (list Table)
}.

(* ===================================================================== *)
(** * Content items *)
(* ===================================================================== *)

Inductive content_type := paragraph | table | chart.

(** The item dictionaries.  ['bbox'] is deleted before a page is returned;
    ['text'], ['table_data'] and ['description'] exist on one kind each. *)
Record Item := mkItem {
  item_type : content_type;
  item_bbox : option Rect;
  item_section : string;
  item_sub_section : option string;
  item_text : option string;
  item_table_data : option (list (list string));
  item_description : option string
}.

Record PageOut := mkPageOut {
  page_number : nat;
  content : list Item
}.

Record Output := mkOutput {
  file_path : string;
  total_pages : nat;
  pages : list PageOut
}.

(** An item that still carries its box. *)
Definition has_bbox (it : Item) : Prop := exists b, item_bbox it = Some b.

(** An image whose box PyMuPDF finds. *)
Definition bbox_answered (img : Image) : Prop :=
  exists r, image_bbox img = Ok r.

(* ===================================================================== *)
(** * The parser object, the world and the monad *)
(* ===================================================================== *)

Record PDFParser := mkPDFParser {
  current_section : string;
  current_sub_section : option string
}.

(** [PDFParser.__init__] *)
Definition PDFParser_init : PDFParser :=
  {| current_section := "Default"; current_sub_section := None |}.

Inductive handle := NotOpened | Opened | Closed.

Record World := mkWorld {
  self : PDFParser;
  doc_handle : handle
}.

Definition M (A : Type) : Type := World -> result A * World.

Definition ret {A} (a : A) : M A := fun w => (Ok a, w).

Definition bind {A B} (m : M A) (k : A -> M B) : M B :=
  fun w =>
    match m w with
    | (Ok a, w') => k a w'
    | (Raise e, w') => (Raise e, w')
    end.

(** The answer of a collaborator, raised again when it is an exception. *)
Definition lift {A} (r : result A) : M A := fun w => (r, w).

Declare Scope py_scope.
Delimit Scope py_scope with py.
Notation "x <- c1 ;; c2" := (bind c1 (fun x => c2))
  (at level 61, c1 at next level, right associativity) : py_scope.
Notation "' pat <- c1 ;; c2" := (bind c1 (fun x => match x with pat => c2 end))
  (at level 61, pat pattern, c1 at next level, right associativity) : py_scope.
Notation "c1 ;; c2" := (bind c1 (fun _ => c2))
  (at level 61, right associativity) : py_scope.
Open Scope py_scope.

Definition get_self : M PDFParser := fun w => (Ok (self w), w).

(** [self.current_section = s] *)
Definition set_current_section (s : string) : M unit :=
  fun w =>
    (Ok tt,
     {| self := {| current_section := s;
                   current_sub_section := current_sub_section (self w) |};
        doc_handle := doc_handle w |}).

(** [self.current_sub_section = s] *)
Definition set_current_sub_section (s : option string) : M unit :=
  fun w =>
    (Ok tt,
     {| self := {| current_section := current_section (self w);
                   current_sub_section := s |};
        doc_handle := doc_handle w |}).

Definition set_doc_handle (h : handle) : M unit :=
  fun w => (Ok tt, {| self := self w; doc_handle := h |}).

(* ===================================================================== *)
(** * [sorted(..., key=...)] *)
(* ===================================================================== *)

(** [sorted] is the stable ascending sort.  It is modelled by insertion,
    an element going in front of the first one whose key is not smaller;
    [sorted_perm], [sorted_ascending] and [sorted_stable] below show that
    this is the stable sort. *)
Fixpoint insert_by {A} (key : A -> Q) (x : A) (l : list A) : list A :=
  match l with
  | [] => [x]
  | y :: r =>
      if Qle_bool (key x) (key y) then x :: y :: r
      else y :: insert_by key x r
  end.

Definition sorted {A} (key : A -> Q) (l : list A) : list A :=
  fold_right (insert_by key) [] l.

(** Ascending order of the keys, and the elements at one key. *)
Definition key_le {A} (key : A -> Q) (a b : A) : Prop := (key a <= key b)%Q.

Definition has_key {A} (key : A -> Q) (k : Q) (a : A) : bool :=
  Qeq_bool (key a) k.

(** Truthiness of a list. *)
Definition nonempty {A} (l : list A) : bool :=
  match l with [] => false | _ :: _ => true end.

(** [str(n)] for a non-negative [int]. *)
Definition str_of_nat (n : nat) : string :=
  NilZero.string_of_uint (Nat.to_uint n).

(* ===================================================================== *)
(** * The methods of [PDFParser] *)
(* ===================================================================== *)

Section Parser.

Context {C : Collaborators}.

(** ** Table detector *)

(** [[str(cell).strip() for cell in row if str(cell).strip()]]; the cells of
    a Camelot frame are strings. *)
Definition clean_row (row : list string) : list string :=
  map PyStr.strip (filter (fun cell => PyStr.truthy (PyStr.strip cell)) row).

Definition final_table_data (df : DataFrame) : list (list string) :=
  let cleaned_table_data := map clean_row (df_values df) in
  filter nonempty cleaned_table_data.

(** The converted box of a table. *)
Definition convert_bbox (page_height : Q) (t : Table) : Rect :=
  let '(x1, y1_camelot, x2, y2_camelot) := table_bbox t in
  let y1 := (page_height - y2_camelot)%Q in
  let y2 := (page_height - y1_camelot)%Q in
  mkRect x1 y1 x2 y2.

Definition table_item (me : PDFParser) (page_height : Q) (t : Table) : Item :=
  {| item_type := table;
     item_bbox := Some (convert_bbox page_height t);
     item_section := current_section me;
     item_sub_section := current_sub_section me;
     item_text := None;
     item_table_data := Some (final_table_data (table_df t));
     item_description := None |}.

(** One turn of [for table in tables], on the two lists being built. *)
Definition tables_step (me : PDFParser) (page_height : Q)
    (acc : list Item * list Rect) (t : Table) : list Item * list Rect :=
  let '(tables_data, ignore_bboxes) := acc in
  if (snd (shape (table_df t)) <=? 1)%nat then acc
  else if (10 <? fst (shape (table_df t)))%nat
          && (snd (shape (table_df t)) <? 3)%nat then acc
  else
    let ignore_bboxes := ignore_bboxes ++ [convert_bbox page_height t] in
    if nonempty (final_table_data (table_df t))
    then (tables_data ++ [table_item me page_height t], ignore_bboxes)
    else (tables_data, ignore_bboxes).

(** The false-positive filter as the specification words it, on the shape
    alone. *)
Definition shape_rejected (t : Table) : bool :=
  let '(rows, columns) := shape (table_df t) in
  (columns <=? 1)%nat || ((10 <? rows)%nat && (columns <? 3)%nat).

(** A candidate is discarded when its shape is rejected or no row is left
    after cleaning. *)
Definition discarded (t : Table) : bool :=
  shape_rejected t || negb (nonempty (final_table_data (table_df t))).

(** The body of the loop cannot raise, so the handler runs only when
    [camelot.read_pdf] raises, with both lists still empty. *)
Definition extract_tables (pdf_path : string) (page_num : nat)
    (page_height : Q) : M (list Item * list Rect) :=
  me <- get_self ;;
  ret match camelot_read_pdf pdf_path (page_num + 1) with
      | Ok tables => fold_left (tables_step me page_height) tables ([], [])
      | Raise _ => ([], [])
      end.

(** ** Image detector *)

Definition chart_item (me : PDFParser) (page : Page) (bbox : Rect) : Item :=
  {| item_type := chart;
     item_bbox := Some bbox;
     item_section := current_section me;
     item_sub_section := current_sub_section me;
     item_text := None;
     item_table_data := None;
     item_description :=
       Some ("Chart or image found on page "
             ++ str_of_nat (pg_number page + 1))%string |}.

Fixpoint images_loop (page : Page) (imgs : list Image)
    (images_data : list Item) (ignore_bboxes : list Rect)
    : M (list Item * list Rect) :=
  match imgs with
  | [] => ret (images_data, ignore_bboxes)
  | img :: rest =>
      bbox <- lift (image_bbox img) ;;
      if is_empty bbox then images_loop page rest images_data ignore_bboxes
      else
        me <- get_self ;;
        images_loop page rest
          (images_data ++ [chart_item me page bbox])
          (ignore_bboxes ++ [bbox])
  end.

Definition extract_images (page : Page) : M (list Item * list Rect) :=
  imgs <- lift (pg_get_images page) ;;
  images_loop page imgs [] [].

(** ** Region reconciler and section tracker *)

(** [any(bbox.intersects(block_rect) for bbox in ignore_bboxes)] *)
Definition overlaps_any (ignore_bboxes : list Rect) (block : Block) : bool :=
  existsb (fun bbox => intersects bbox (block_bbox block)) ignore_bboxes.

(** The style of the first span of the first line, ['p'] without one. *)
Definition main_style (block : Block) : style :=
  match block_lines block with
  | Some (line0 :: _) =>
      match line_spans line0 with
      | Some (span0 :: _) => get_text_style span0
      | _ => Style_p
      end
  | _ => Style_p
  end.

Definition is_text_block (block : Block) : bool :=
  match block_type block with
  | Some t => (t =? 0)%Z
  | None => false
  end.

Definition paragraph_item (me : PDFParser) (block : Block)
    (cleaned_text : string) : Item :=
  {| item_type := paragraph;
     item_bbox := Some (block_bbox block);
     item_section := current_section me;
     item_sub_section := current_sub_section me;
     item_text := Some cleaned_text;
     item_table_data := None;
     item_description := None |}.

(** One turn of [for block in blocks]: [None] where the source says
    [continue], the appended item otherwise. *)
Definition text_block_step (ignore_bboxes : list Rect) (block : Block)
    : M (option Item) :=
  if negb (is_text_block block) then ret None
  else if overlaps_any ignore_bboxes block then ret None
  else
    let cleaned_text := extract_clean_text block in
    if negb (PyStr.truthy cleaned_text) then ret None
    else
      match main_style block with
      | Style_h1 =>
          set_current_section cleaned_text ;;
          set_current_sub_section None
      | Style_h2 => set_current_sub_section (Some cleaned_text)
      | Style_p => ret tt
      end ;;
      me <- get_self ;;
      ret (Some (paragraph_item me block cleaned_text)).

(** The section tracker as the specification words it: a major heading
    takes the section and clears the subsection, a minor heading takes the
    subsection, anything else leaves both. *)
Definition tracker_update (st : style) (text : string) (me : PDFParser)
    : PDFParser :=
  match st with
  | Style_h1 => {| current_section := text; current_sub_section := None |}
  | Style_h2 => {| current_section := current_section me;
                   current_sub_section := Some text |}
  | Style_p => me
  end.

(** The blocks the specification keeps: text blocks that meet no
    suppression box and have text left after normalisation. *)
Definition kept (ignore_bboxes : list Rect) (block : Block) : bool :=
  is_text_block block
  && negb (overlaps_any ignore_bboxes block)
  && PyStr.truthy (extract_clean_text block).

Fixpoint text_blocks_loop (ignore_bboxes : list Rect) (blocks : list Block)
    (text_blocks : list Item) : M (list Item) :=
  match blocks with
  | [] => ret text_blocks
  | block :: rest =>
      o <- text_block_step ignore_bboxes block ;;
      match o with
      | None => text_blocks_loop ignore_bboxes rest text_blocks
      | Some content_item =>
          text_blocks_loop ignore_bboxes rest (text_blocks ++ [content_item])
      end
  end.

Definition extract_text_blocks (page : Page) (ignore_bboxes : list Rect)
    : M (list Item) :=
  blocks <- lift (pg_get_text_blocks page) ;;
  text_blocks_loop ignore_bboxes blocks [].

(** ** Page orchestrator *)

(** [item.get('bbox', (0, 0, 0, 0))[1]] *)
Definition sort_key (item : Item) : Q :=
  match item_bbox item with
  | Some bbox => y0 bbox
  | None => 0%Q
  end.

(** [del item['bbox']] *)
Definition del_bbox (item : Item) : Item :=
  {| item_type := item_type item;
     item_bbox := None;
     item_section := item_section item;
     item_sub_section := item_sub_section item;
     item_text := item_text item;
     item_table_data := item_table_data item;
     item_description := item_description item |}.

(** [doc[page_num]] *)
Definition doc_getitem (d : Document) (page_num : nat) : M Page :=
  match nth_error (doc_pages d) page_num with
  | Some page => ret page
  | None => lift (Raise (Exception "IndexError: page not in document"))
  end.

Definition parse_page (d : Document) (page_num : nat) : M (list Item) :=
  page <- doc_getitem d page_num ;;
  let page_height := pg_rect_height page in
  ' (tables_data, table_bboxes) <-
      extract_tables (doc_name d) page_num page_height ;;
  ' (images_data, image_bboxes) <- extract_images page ;;
  let ignore_bboxes := table_bboxes ++ image_bboxes in
  text_content <- extract_text_blocks page ignore_bboxes ;;
  let all_content := tables_data ++ images_data ++ text_content in
  let sorted_content := sorted sort_key all_content in
  ret (map del_bbox sorted_content).

(** ** Document orchestrator *)

(** [for page_num in range(len(doc))], on the list ['pages'] being built. *)
Fixpoint parse_pages (d : Document) (page_nums : list nat)
    (out : list PageOut) : M (list PageOut) :=
  match page_nums with
  | [] => ret out
  | page_num :: rest =>
      page_content <- parse_page d page_num ;;
      parse_pages d rest
        (out ++ [ {| page_number := page_num + 1;
                     content := page_content |} ])
  end.

(** [None] is returned for a missing path and for a file that does not open;
    the messages printed on the way are not modelled. *)
Definition parse (pdf_path : string) : M (option Output) :=
  if negb (os_path_exists pdf_path) then ret None
  else
    match fitz_open pdf_path with
    | Raise _ => ret None
    | Ok d =>
        set_doc_handle Opened ;;
        out <- parse_pages d (seq 0 (List.length (doc_pages d))) [] ;;
        set_doc_handle Closed ;;
        ret (Some {| file_path := pdf_path;
                     total_pages := List.length (doc_pages d);
                     pages := out |})
    end.

(** The world a fresh parser starts in. *)
Definition fresh_world : World :=
  {| self := PDFParser_init; doc_handle := NotOpened |}.

(** [parse_pdf]: a fresh parser, one [parse]. *)
Definition parse_pdf (pdf_path : string) : result (option Output) * World :=
  parse pdf_path fresh_world.

End Parser.

(* ===================================================================== *)
(** * Sample inputs *)
(* ===================================================================== *)

(** The plane geometry of rectangles with [x0 < x1] and [y0 < y1]: a
    rectangle is empty when it has no interior, two rectangles intersect
    when neither is empty and their common part is not. *)
Definition plane_is_empty (r : Rect) : bool :=
  Qle_bool (x1 r) (x0 r) || Qle_bool (y1 r) (y0 r).

Definition Qmax_b (a b : Q) : Q := if Qle_bool a b then b else a.
Definition Qmin_b (a b : Q) : Q := if Qle_bool a b then a else b.

Definition plane_intersects (a b : Rect) : bool :=
  if plane_is_empty a || plane_is_empty b then false
  else negb (plane_is_empty
               (mkRect (Qmax_b (x0 a) (x0 b)) (Qmax_b (y0 a) (y0 b))
                       (Qmin_b (x1 a) (x1 b)) (Qmin_b (y1 a) (y1 b)))).

(** Collaborators over the plane geometry, for a given file system and a
    given table detector. *)
Definition plane_collaborators (exists_ : string -> bool)
    (open_ : string -> result Document)
    (camelot : string -> nat -> result (list Table)) : Collaborators :=
  {| intersects := plane_intersects;
     is_empty := plane_is_empty;
     os_path_exists := exists_;
     fitz_open := open_;
     camelot_read_pdf := camelot |}.

(** A block of one line with one span. *)
Definition one_span_block (bbox : Rect) (text : string) (size : Q)
    (font : string) : Block :=
  {| block_type := Some 0%Z;
     block_bbox := bbox;
     block_lines :=
       Some [ {| line_spans :=
                   Some [ {| span_text := Some text;
                             span_size := size;
                             span_font := font |} ] |} ] |}.

(** Boxes stacked down the page, one per line number. *)
Definition row_box (n : Z) : Rect :=
  mkRect 0 (inject_Z (20 * n)) 100 (inject_Z (20 * n + 10)).

(** The four blocks of the forward-propagation example, down the page. *)
Definition intro_blocks : list Block :=
  [ one_span_block (row_box 0) "Intro" 18 "Times-Roman";
    one_span_block (row_box 1) "a" 10 "Times-Roman";
    one_span_block (row_box 2) "Background" 13 "Times-Roman";
    one_span_block (row_box 3) "b" 10 "Times-Roman" ].

(** A page without images, with the given text blocks. *)
Definition text_page (number : nat) (blocks : list Block) : Page :=
  {| pg_number := number;
     pg_rect_height := 842;
     pg_get_images := Ok [];
     pg_get_text_blocks := Ok blocks |}.

(** Two pages: a line of preface and the heading "Intro" on the first, a
    line of body text and no heading on the second. *)
Definition two_page_doc : Document :=
  {| doc_name := "report.pdf";
     doc_pages :=
       [ text_page 0 [ one_span_block (row_box 0) "preface" 10 "Times-Roman";
                       one_span_block (row_box 1) "Intro" 18 "Times-Roman" ];
         text_page 1 [ one_span_block (row_box 0) "body" 10 "Times-Roman" ] ] |}.

(** Two pages, the text of the second of which PyMuPDF fails to read. *)
Definition damaged_doc : Document :=
  {| doc_name := "damaged.pdf";
     doc_pages :=
       [ text_page 0 [ one_span_block (row_box 0) "Intro" 18 "Times-Roman" ];
         {| pg_number := 1;
            pg_rect_height := 842;
            pg_get_images := Ok [];
            pg_get_text_blocks :=
              Raise (Exception "RuntimeError: cannot read page text") |} ] |}.

(** A world in which every path exists and opens as [d], and Camelot finds
    no table. *)
Definition serving (d : Document) : Collaborators :=
  plane_collaborators (fun _ => true) (fun _ => Ok d) (fun _ _ => Ok []).

(** A page with a table, an image and a paragraph side by side, all with
    top edge 20, under a line of text with top edge 0.  Camelot gives the
    table box counted from the other end of the page of height 842. *)
Definition mixed_table : Table :=
  {| table_df := mkDataFrame 2 [ ["Year"; "Total"]; ["2024"; " 17 "] ]%string;
     table_bbox := (0, 812, 100, 822)%Q |}.

Definition mixed_page : Page :=
  {| pg_number := 0;
     pg_rect_height := 842;
     pg_get_images := Ok [ mkImage (Ok (mkRect 110 20 180 30)) ];
     pg_get_text_blocks :=
       Ok [ one_span_block (row_box 0) "Results" 18 "Times-Roman";
            one_span_block (mkRect 200 20 300 30) "Figures" 10 "Times-Roman";
            one_span_block (mkRect 50 25 150 35) "2024 17" 10 "Times-Roman" ] |}.

Definition mixed_doc : Document :=
  {| doc_name := "mixed.pdf"; doc_pages := [ mixed_page ] |}.

Definition mixed_collaborators : Collaborators :=
  plane_collaborators (fun _ => true) (fun _ => Ok mixed_doc)
    (fun _ _ => Ok [ mixed_table ]).

(** Camelot failing on every page. *)
Definition camelot_failing : Collaborators :=
  plane_collaborators (fun _ => true) (fun _ => Ok two_page_doc)
    (fun _ _ => Raise (Exception "ValueError: no tables on page")).

(** Candidates of 12 rows by 2 columns and of 3 rows by 3 columns. *)
Definition tall_table : Table :=
  {| table_df := mkDataFrame 2 (repeat [ "item"; "price" ]%string 12);
     table_bbox := (0, 0, 100, 400)%Q |}.

Definition square_table : Table :=
  {| table_df := mkDataFrame 3 (repeat [ "a"; ""; " c " ]%string 3);
     table_bbox := (0, 0, 100, 100)%Q |}.

(** A page of two lines, the heading "Results" over a line of body text,
    and two candidates lying over both lines: one of two columns whose
    cells are all whitespace, one of a single column. *)
Definition covered_page : Page :=
  text_page 0 [ one_span_block (row_box 0) "Results" 18 "Times-Roman";
                one_span_block (row_box 1) "Body text" 10 "Times-Roman" ].

Definition covered_doc : Document :=
  {| doc_name := "covered.pdf"; doc_pages := [ covered_page ] |}.

Definition blank_table : Table :=
  {| table_df := mkDataFrame 2 [ [ " "; "" ]; [ "  "; " " ] ]%string;
     table_bbox := (0, 742, 300, 842)%Q |}.

Definition narrow_table : Table :=
  {| table_df := mkDataFrame 1 [ [ "Results" ]; [ "Body text" ] ]%string;
     table_bbox := (0, 742, 300, 842)%Q |}.

(** Camelot finding the one candidate [t] on the page of [covered_doc]. *)
Definition camelot_finding (t : Table) : Collaborators :=
  plane_collaborators (fun _ => true) (fun _ => Ok covered_doc)
    (fun _ _ => Ok [ t ]).

(** The labels an output page shows: type, text, section, subsection. *)
Definition labels (it : Item)
    : content_type * option string * string * option string :=
  (item_type it, item_text it, item_section it, item_sub_section it).

(* ===================================================================== *)
(** * Predicates for the postconditions *)
(* ===================================================================== *)

(** A string of whitespace only. *)
Fixpoint blank (s : string) : bool :=
  match s with
  | EmptyString => true
  | String c r => PyStr.isspace c && blank r
  end.

(** A cell as the table detector leaves it: not empty, no outer
    whitespace. *)
Definition clean_cell (cell : string) : Prop :=
  cell <> ""%string /\ PyStr.trimmed cell = true.

(** An item labelled with the tracker [me]. *)
Definition stamped (me : PDFParser) (it : Item) : Prop :=
  item_section it = current_section me
  /\ item_sub_section it = current_sub_section me.

(** A page on which PyMuPDF answers every question of the parser. *)
Definition page_answers (page : Page) : Prop :=
  exists imgs blocks,
    pg_get_images page = Ok imgs
    /\ Forall bbox_answered imgs
    /\ pg_get_text_blocks page = Ok blocks.

(** A page on which PyMuPDF raises [e]: listing the images, or finding the
    box of the first image that has none, or reading the text. *)
Definition page_fails (page : Page) (e : exn) : Prop :=
  pg_get_images page = Raise e
  \/ (exists before img after,
        pg_get_images page = Ok (before ++ img :: after)
        /\ Forall bbox_answered before
        /\ image_bbox img = Raise e)
  \/ (exists imgs,
        pg_get_images page = Ok imgs
        /\ Forall bbox_answered imgs
        /\ pg_get_text_blocks page = Raise e).

(** The boxes of the images that have one that is not empty. *)
Definition shown_boxes {C : Collaborators} (imgs : list Image) : list Rect :=
  flat_map (fun img =>
              match image_bbox img with
              | Ok r => if is_empty r then [] else [r]
              | Raise _ => []
              end) imgs.

(* ===================================================================== *)
(** * The command line of [main.py] and the upload page of [app.py] *)
(* ===================================================================== *)

(** The standard library as the two scripts use it: the text
    [json.dump(data, f, indent=n)] writes, the text
    [json.dumps(data, indent=n, ensure_ascii=False)] returns, whether
    [open(path, 'w')] succeeds, [os.path.join] and the stem
    [os.path.splitext(name)[0]]. *)
Class Shell := {
  json_dump : Output -> nat -> string;
  json_dumps : option Output -> nat -> string;
  open_for_writing : string -> result unit;
  os_path_join : string -> string -> string;
  splitext_stem : string -> string
}.

(** What [main] does to the outside: the file it writes, the lines it
    prints itself. *)
Inductive effect :=
| Written (path content : string)
| Printed (line : string).

(** [main], from the parsed arguments on.  [parse_pdf] answers [None] or a
    dictionary of three keys, which is truthy. *)
Definition main {C : Collaborators} {S : Shell} (input output : string)
    : result unit * list effect :=
  match fst (parse_pdf input) with
  | Raise e => (Raise e, [])
  | Ok None => (Ok tt, [ Printed "Could not extract data from the PDF." ])
  | Ok (Some extracted_data) =>
      match open_for_writing output with
      | Raise e => (Raise e, [])
      | Ok _ =>
          (Ok tt,
           [ Written output (json_dump extracted_data 4);
             Printed ("Successfully created the JSON output at: "
                      ++ output)%string ])
      end
  end.



(** The name up to its last dot, for names that do not begin with one. *)
Fixpoint has_dot (s : string) : bool :=
  match s with
  | EmptyString => false
  | String c r => Ascii.eqb c "."%char || has_dot r
  end.

Fixpoint up_to_last_dot (s : string) : string :=
  match s with
  | EmptyString => EmptyString
  | String c r =>
      if has_dot r then String c (up_to_last_dot r)
      else if Ascii.eqb c "."%char then EmptyString
      else s
  end.

(** A shell for the samples: paths joined by a slash, every file
    writable, the stem up to the last dot, [None] dumped as "null" and a
    document dumped as its path. *)
Definition sample_shell : Shell :=
  {| json_dump := fun out _ => file_path out;
     json_dumps := fun o _ =>
       match o with Some out => file_path out | None => "null"%string end;
     open_for_writing := fun _ => Ok tt;
     os_path_join := fun a b => (a ++ "/" ++ b)%string;
     splitext_stem := up_to_last_dot |}.

(** A world in which every path exists and none opens. *)
Definition unopenable : Collaborators :=
  plane_collaborators (fun _ => true)
    (fun _ => Raise (Exception "FileDataError: cannot open broken document"))
    (fun _ _ => Ok []).

(** A world in which no path exists. *)
Definition nothing_there : Collaborators :=
  plane_collaborators (fun _ => false) (fun _ => Ok two_page_doc)
    (fun _ _ => Ok []).

(* ===================================================================== *)
(** * Facts about strings *)
(* ===================================================================== *)

Module PyStrFacts.
Import PyStr.
Local Open Scope string_scope.

Lemma app_nil_r (s : string) : s ++ "" = s.
Proof. induction s as [|c s IH]; simpl; [reflexivity | now rewrite IH]. Qed.

Lemma app_assoc (a b c : string) : (a ++ b) ++ c = a ++ (b ++ c).
Proof. induction a as [|x a IH]; simpl; [reflexivity | now rewrite IH]. Qed.

Lemma isspace_nl : isspace (ascii_of_nat 10) = true.
Proof. reflexivity. Qed.

(** A whitespace character at the end is what [rstrip] removes first. *)
Lemma rstrip_app_space (s : string) (c : ascii) :
  isspace c = true -> rstrip (s ++ String c "") = rstrip s.
Proof.
  intros Hc. induction s as [|a s IH]; simpl.
  - now rewrite Hc.
  - now rewrite IH.
Qed.

Lemma rstrip_fix (s : string) : ends_with_space s = false -> rstrip s = s.
Proof.
  induction s as [|c r IH]; [reflexivity|].
  destruct r as [|c' r'].
  - simpl. now intros ->.
  - intros H. change (ends_with_space (String c' r') = false) in H.
    change (rstrip (String c (String c' r')))
      with (match rstrip (String c' r') with
            | "" => if isspace c then "" else String c ""
            | r0 => String c r0
            end).
    now rewrite (IH H).
Qed.

Lemma lstrip_fix (s : string) : starts_with_space s = false -> lstrip s = s.
Proof. destruct s as [|c r]; simpl; [reflexivity | now intros ->]. Qed.

Lemma trimmed_parts (s : string) :
  trimmed s = true <-> starts_with_space s = false /\ ends_with_space s = false.
Proof.
  unfold trimmed. rewrite andb_true_iff, !negb_true_iff. tauto.
Qed.

(** A string without outer whitespace is a fixed point of [strip]. *)
Lemma strip_trimmed (s : string) : trimmed s = true -> strip s = s.
Proof.
  rewrite trimmed_parts. intros [Hl Hr]. unfold strip.
  rewrite (rstrip_fix _ Hr). now apply lstrip_fix.
Qed.

Lemma rstrip_no_trailing (s : string) : ends_with_space (rstrip s) = false.
Proof.
  induction s as [|c r IH]; [reflexivity|].
  simpl. destruct (rstrip r) as [|c' r'] eqn:E.
  - destruct (isspace c) eqn:Hc; simpl; [reflexivity | exact Hc].
  - exact IH.
Qed.

Lemma lstrip_no_leading (s : string) : starts_with_space (lstrip s) = false.
Proof.
  induction s as [|c r IH]; [reflexivity|].
  simpl. destruct (isspace c) eqn:Hc; [exact IH | simpl; exact Hc].
Qed.

Lemma lstrip_keeps_end (s : string) :
  ends_with_space s = false -> ends_with_space (lstrip s) = false.
Proof.
  induction s as [|c r IH]; [reflexivity|].
  intros H. simpl. destruct (isspace c) eqn:Hc; [|exact H].
  apply IH. destruct r as [|c' r']; [reflexivity | exact H].
Qed.

(** Whatever [strip] returns has no outer whitespace. *)
Lemma strip_is_trimmed (s : string) : trimmed (strip s) = true.
Proof.
  apply trimmed_parts. unfold strip. split.
  - apply lstrip_no_leading.
  - apply lstrip_keeps_end, rstrip_no_trailing.
Qed.

Lemma strip_idempotent (s : string) : strip (strip s) = strip s.
Proof. apply strip_trimmed, strip_is_trimmed. Qed.

Lemma strip_app_nl (s : string) : strip (s ++ nl) = strip s.
Proof. unfold strip, nl. now rewrite rstrip_app_space. Qed.

Lemma startswith_iff (pre s : string) :
  startswith pre s = true <-> exists rest, s = pre ++ rest.
Proof.
  revert s. induction pre as [|a pre IH]; intros s; simpl.
  - split; [intros _; now exists s | reflexivity].
  - destruct s as [|b s].
    + split; [discriminate | intros [rest H]; discriminate].
    + rewrite andb_true_iff, Ascii.eqb_eq, IH. split.
      * intros [-> [rest ->]]. now exists rest.
      * intros [rest H]. injection H as -> ->. split; [reflexivity | now exists rest].
Qed.

(** [contains] is the substring test. *)
Lemma contains_iff (needle hay : string) :
  contains needle hay = true <-> exists a b, hay = a ++ needle ++ b.
Proof.
  induction hay as [|c hay IH].
  - simpl. rewrite orb_false_r, startswith_iff. split.
    + intros [rest H]. now exists "", rest.
    + intros [a [b H]]. destruct a; [now exists b | discriminate].
  - simpl. rewrite orb_true_iff, startswith_iff, IH. split.
    + intros [[rest H] | [a [b H]]].
      * now exists "", rest.
      * exists (String c a), b. simpl. now rewrite H.
    + intros [a [b H]]. destruct a as [|x a]; simpl in H.
      * left. now exists b.
      * right. injection H as _ H. now exists a, b.
Qed.

(** Lines that end in a newline each, put end to end, are the lines joined
    by newlines, and one more newline. *)
Lemma concat_lines (texts : list string) :
  texts <> [] ->
  String.concat "" (map (fun t => t ++ nl) texts) = String.concat nl texts ++ nl.
Proof.
  induction texts as [|t rest IH]; [congruence|]. intros _.
  destruct rest as [|t' rest'].
  - simpl. reflexivity.
  - change (String.concat "" (map (fun t0 => t0 ++ nl) (t :: t' :: rest')))
      with ((t ++ nl) ++ "" ++
            String.concat "" (map (fun t0 => t0 ++ nl) (t' :: rest'))).
    rewrite IH by congruence.
    change (String.concat nl (t :: t' :: rest'))
      with (t ++ nl ++ String.concat nl (t' :: rest')).
    simpl. now rewrite !app_assoc.
Qed.

End PyStrFacts.

(* ===================================================================== *)
(** * Text block normaliser *)
(* ===================================================================== *)

Section Normaliser.
Import PyStr PyStrFacts.
Local Open Scope string_scope.

Lemma concat_empty_cons (x : string) (xs : list string) :
  String.concat "" (x :: xs) = x ++ String.concat "" xs.
Proof. destruct xs; simpl; [now rewrite app_nil_r | reflexivity]. Qed.

(** The accumulation [full_text += line_text.strip() + "\n"], unrolled. *)
Lemma full_text_unrolled (lines : list Line) (acc : string) :
  fold_left (fun full_text line => full_text ++ (strip (line_text line) ++ nl))
            lines acc
  = acc ++ String.concat "" (map (fun line => strip (line_text line) ++ nl) lines).
Proof.
  revert acc. induction lines as [|l lines IH]; intros acc; simpl fold_left.
  - simpl. now rewrite app_nil_r.
  - rewrite IH. rewrite map_cons, concat_empty_cons. now rewrite !app_assoc.
Qed.

Lemma extract_clean_text_unrolled (block : Block) :
  extract_clean_text block
  = strip (String.concat "" (map (fun t => strip t ++ nl) (line_texts block))).
Proof.
  unfold extract_clean_text, line_texts. rewrite full_text_unrolled.
  simpl. now rewrite map_map.
Qed.

(** The normaliser never returns outer whitespace. *)
Lemma extract_clean_text_trimmed (block : Block) :
  trimmed (extract_clean_text block) = true.
Proof. unfold extract_clean_text. apply strip_is_trimmed. Qed.

(** C9. A block whose lines have no leading or trailing whitespace, and
    whose lines joined by single newlines have none either, is normalised
    to exactly that joined text: the normaliser changes nothing of already
    normalised text. *)
Theorem C9_normalised_text_unchanged (block : Block) :
  Forall (fun t => trimmed t = true) (line_texts block) ->
  trimmed (String.concat nl (line_texts block)) = true ->
  extract_clean_text block = String.concat nl (line_texts block).
Proof.
  intros Hlines Hwhole. rewrite extract_clean_text_unrolled.
  assert (E : map (fun t => strip t ++ nl) (line_texts block)
              = map (fun t => t ++ nl) (line_texts block)).
  { apply map_ext_in. intros t Ht. rewrite Forall_forall in Hlines.
    now rewrite (strip_trimmed _ (Hlines t Ht)). }
  rewrite E. destruct (line_texts block) as [|t rest] eqn:Et.
  - reflexivity.
  - rewrite concat_lines by congruence.
    rewrite strip_app_nl. now apply strip_trimmed.
Qed.

(** The theorem at the block of the two lines ["Total  cost"] and ["42"]. *)
Lemma C9_normalised_text_unchanged_witness :
  extract_clean_text
    {| block_type := Some 0%Z;
       block_bbox := row_box 0;
       block_lines :=
         Some [ {| line_spans := Some [ mkSpan (Some "Total ") 10 "Arial";
                                        mkSpan (Some " cost") 10 "Arial" ] |};
                {| line_spans := Some [ mkSpan (Some "42") 10 "Arial" ] |} ] |}
  = "Total  cost" ++ nl ++ "42".
Proof.
  apply (C9_normalised_text_unchanged
           {| block_type := Some 0%Z;
              block_bbox := row_box 0;
              block_lines :=
                Some [ {| line_spans := Some [ mkSpan (Some "Total ") 10 "Arial";
                                               mkSpan (Some " cost") 10 "Arial" ] |};
                       {| line_spans := Some [ mkSpan (Some "42") 10 "Arial" ] |} ] |}).
  - repeat constructor.
  - reflexivity.
Defined.

End Normaliser.

(* ===================================================================== *)
(** * Style classifier *)
(* ===================================================================== *)

(** [py_round] answers an integer at distance at most one half. *)
Lemma py_round_nearest (x : Q) :
  (inject_Z (py_round x) - (1 # 2) <= x
   /\ x <= inject_Z (py_round x) + (1 # 2))%Q.
Proof.
  unfold py_round.
  pose proof (Qfloor_le x) as Hlo. pose proof (Qlt_floor x) as Hhi.
  rewrite inject_Z_plus in Hhi. change (inject_Z 1) with 1%Q in Hhi.
  destruct (Qcompare_spec (x - inject_Z (Qfloor x)) (1 # 2)) as [He | Hl | Hg].
  - destruct (Z.even (Qfloor x)).
    + split; lra.
    + rewrite inject_Z_plus. change (inject_Z 1) with 1%Q. split; lra.
  - split; lra.
  - rewrite inject_Z_plus. change (inject_Z 1) with 1%Q. split; lra.
Qed.

(** On an integer [py_round] is the identity. *)
Lemma py_round_Z (z : Z) : py_round (inject_Z z) = z.
Proof.
  unfold py_round. rewrite Qfloor_Z.
  destruct (Qcompare_spec (inject_Z z - inject_Z z) (1 # 2)) as [He | Hl | Hg].
  - exfalso. lra.
  - reflexivity.
  - exfalso. lra.
Qed.

(** A tie goes to the even neighbour: 12.5 is rounded down, 15.5 up. *)
Lemma py_round_ties : py_round (25 # 2) = 12%Z /\ py_round (31 # 2) = 16%Z.
Proof. split; reflexivity. Qed.

(** The font name is bold when its lower-cased form has ["bold"] inside. *)
Lemma is_bold_iff (span : Span) :
  is_bold span = true
  <-> exists a b, PyStr.lower (span_font span) = (a ++ "bold" ++ b)%string.
Proof. unfold is_bold. apply PyStrFacts.contains_iff. Qed.

(** C4. With the size rounded to the nearest integer: above 15 the style is
    heading-major whatever the font; otherwise from 12 on with a bold font
    it is heading-minor; otherwise above 12 it is heading-minor whatever
    the font; otherwise it is paragraph, and so at exactly 12 without a
    bold font. *)
Theorem C4_style_by_rounded_size (span : Span) :
  let size := py_round (span_size span) in
  (size > 15 -> get_text_style span = Style_h1)%Z
  /\ (size <= 15 -> 12 <= size -> is_bold span = true ->
      get_text_style span = Style_h2)%Z
  /\ (size <= 15 -> 12 < size -> get_text_style span = Style_h2)%Z
  /\ (size <= 12 -> ~ (12 <= size /\ is_bold span = true) ->
      get_text_style span = Style_p)%Z
  /\ (size = 12 -> is_bold span = false -> get_text_style span = Style_p)%Z.
Proof.
  intros size. unfold get_text_style. fold size.
  destruct (Z.ltb_spec 15 size) as [H15 | H15];
  destruct (Z.leb_spec 12 size) as [H12 | H12];
  destruct (Z.ltb_spec 12 size) as [H12' | H12'];
  destruct (is_bold span) eqn:Hb; simpl;
  repeat split; intros; try reflexivity; try lia; try discriminate;
  try (exfalso; tauto).
Qed.

(** The theorem at sizes 15.6, 12.2 bold, 13 regular, 12.4 regular and 11. *)
Lemma C4_style_by_rounded_size_witness :
  get_text_style (mkSpan None (78 # 5) "Times-Roman") = Style_h1
  /\ get_text_style (mkSpan None (61 # 5) "Helvetica-BoldOblique") = Style_h2
  /\ get_text_style (mkSpan None 13 "Times-Roman") = Style_h2
  /\ get_text_style (mkSpan None 11 "Arial-BOLD") = Style_p
  /\ get_text_style (mkSpan None (62 # 5) "Times-Roman") = Style_p.
Proof.
  split; [|split; [|split; [|split]]].
  - destruct (C4_style_by_rounded_size (mkSpan None (78 # 5) "Times-Roman"))
      as (Hmajor & _).
    apply Hmajor. vm_compute. reflexivity.
  - destruct (C4_style_by_rounded_size
                (mkSpan None (61 # 5) "Helvetica-BoldOblique"))
      as (_ & Hbold & _).
    apply Hbold; vm_compute; (reflexivity || discriminate).
  - destruct (C4_style_by_rounded_size (mkSpan None 13 "Times-Roman"))
      as (_ & _ & Hlarge & _).
    apply Hlarge; vm_compute; (reflexivity || discriminate).
  - destruct (C4_style_by_rounded_size (mkSpan None 11 "Arial-BOLD"))
      as (_ & _ & _ & Hsmall & _).
    apply Hsmall.
    + vm_compute. discriminate.
    + vm_compute. intros [H _]. apply H. reflexivity.
  - destruct (C4_style_by_rounded_size (mkSpan None (62 # 5) "Times-Roman"))
      as (_ & _ & _ & _ & Htwelve).
    apply Htwelve; vm_compute; reflexivity.
Defined.

(* ===================================================================== *)
(** * Running the monad *)
(* ===================================================================== *)

Ltac run :=
  unfold bind, ret, lift, get_self, set_current_section,
    set_current_sub_section, set_doc_handle; simpl.

Lemma bind_ok {A B} (m : M A) (k : A -> M B) (w w' : World) (a : A) :
  m w = (Ok a, w') -> bind m k w = k a w'.
Proof. unfold bind. now intros ->. Qed.

Lemma bind_raise {A B} (m : M A) (k : A -> M B) (w w' : World) (e : exn) :
  m w = (Raise e, w') -> bind m k w = (Raise e, w').
Proof. unfold bind. now intros ->. Qed.

Lemma world_eta (w : World) :
  {| self := self w; doc_handle := doc_handle w |} = w.
Proof. now destruct w. Qed.

Lemma parser_eta (me : PDFParser) :
  {| current_section := current_section me;
     current_sub_section := current_sub_section me |} = me.
Proof. now destruct me. Qed.

(* ===================================================================== *)
(** * Region reconciler and section tracker *)
(* ===================================================================== *)

Section Reconciler.

Context {C : Collaborators}.

Lemma overlaps_any_iff (ignore_bboxes : list Rect) (block : Block) :
  overlaps_any ignore_bboxes block = true
  <-> exists bbox, In bbox ignore_bboxes
                   /\ intersects bbox (block_bbox block) = true.
Proof. unfold overlaps_any. apply existsb_exists. Qed.

Lemma overlaps_none_iff (ignore_bboxes : list Rect) (block : Block) :
  overlaps_any ignore_bboxes block = false
  <-> forall bbox, In bbox ignore_bboxes ->
                   intersects bbox (block_bbox block) = false.
Proof.
  unfold overlaps_any. split.
  - intros H bbox Hin. destruct (intersects bbox (block_bbox block)) eqn:E;
      [|reflexivity].
    assert (existsb (fun b => intersects b (block_bbox block)) ignore_bboxes
            = true) as H' by (apply existsb_exists; eauto).
    congruence.
  - intros H. destruct (existsb _ ignore_bboxes) eqn:E; [|reflexivity].
    apply existsb_exists in E. destruct E as [bbox [Hin Hb]].
    rewrite (H bbox Hin) in Hb. discriminate.
Qed.

(** One block, in one equation: a kept block moves the tracker and is
    emitted with the tracker it has just moved; any other block does
    nothing at all. *)
Lemma text_block_step_eq (ignore_bboxes : list Rect) (block : Block)
    (w : World) :
  text_block_step ignore_bboxes block w
  = if kept ignore_bboxes block
    then
      let text := extract_clean_text block in
      let me := tracker_update (main_style block) text (self w) in
      (Ok (Some (paragraph_item me block text)),
       {| self := me; doc_handle := doc_handle w |})
    else (Ok None, w).
Proof.
  unfold text_block_step, kept.
  destruct (is_text_block block); simpl; [|reflexivity].
  destruct (overlaps_any ignore_bboxes block); simpl; [reflexivity|].
  destruct (PyStr.truthy (extract_clean_text block)); simpl; [|reflexivity].
  destruct (main_style block); run; try reflexivity.
  now rewrite world_eta.
Qed.

Lemma text_block_step_skip (ignore_bboxes : list Rect) (block : Block)
    (w : World) :
  kept ignore_bboxes block = false ->
  text_block_step ignore_bboxes block w = (Ok None, w).
Proof. intros H. now rewrite text_block_step_eq, H. Qed.

(** The loop over two runs of blocks is the loop over the first, then the
    loop over the second from the list and the world the first ended in. *)
Lemma text_blocks_loop_app (ignore_bboxes : list Rect)
    (blocks1 blocks2 : list Block) (acc : list Item) (w : World) :
  text_blocks_loop ignore_bboxes (blocks1 ++ blocks2) acc w
  = match text_blocks_loop ignore_bboxes blocks1 acc w with
    | (Ok acc', w') => text_blocks_loop ignore_bboxes blocks2 acc' w'
    | (Raise e, w') => (Raise e, w')
    end.
Proof.
  revert acc w. induction blocks1 as [|b blocks1 IH]; intros acc w.
  - reflexivity.
  - simpl. unfold bind. rewrite text_block_step_eq.
    destruct (kept ignore_bboxes b); simpl; apply IH.
Qed.

(** The loop never raises, leaves the document handle alone, only appends,
    and what it appends is one item per kept block, in order. *)
Lemma text_blocks_loop_ok (ignore_bboxes : list Rect) (blocks : list Block)
    (acc : list Item) (w : World) :
  exists items w',
    text_blocks_loop ignore_bboxes blocks acc w = (Ok (acc ++ items), w')
    /\ doc_handle w' = doc_handle w
    /\ map (fun it => (item_type it, item_bbox it, item_text it)) items
       = map (fun b => (paragraph, Some (block_bbox b),
                        Some (extract_clean_text b)))
             (filter (kept ignore_bboxes) blocks).
Proof.
  revert acc w. induction blocks as [|b blocks IH]; intros acc w.
  - exists [], w. simpl. unfold ret. now rewrite app_nil_r.
  - simpl. unfold bind. rewrite text_block_step_eq.
    destruct (kept ignore_bboxes b) eqn:Hk; simpl.
    + match goal with
      | |- context [text_blocks_loop _ _ (acc ++ [?it]) ?w1] =>
          destruct (IH (acc ++ [it]) w1) as (items & w' & Hrun & Hh & Hmap);
          exists (it :: items), w'
      end.
      rewrite Hrun, <- app_assoc. simpl. rewrite Hmap. auto.
    + destruct (IH acc w) as (items & w' & Hrun & Hh & Hmap).
      exists items, w'. auto.
Qed.

Lemma extract_text_blocks_eq (page : Page) (ignore_bboxes : list Rect)
    (blocks : list Block) (w : World) :
  pg_get_text_blocks page = Ok blocks ->
  extract_text_blocks page ignore_bboxes w
  = text_blocks_loop ignore_bboxes blocks [] w.
Proof. intros H. unfold extract_text_blocks, bind, lift. now rewrite H. Qed.

(** C1. On a page whose text blocks PyMuPDF lists, the paragraph output
    holds one item per text block that meets no suppression box and has
    text left after normalisation, in block order.  So a text block whose
    box intersects a suppression box has no item in the output, and a text
    block that meets none and normalises to non-empty text has one. *)
Theorem C1_overlapping_blocks_suppressed (page : Page)
    (ignore_bboxes : list Rect) (blocks : list Block) (w : World) :
  pg_get_text_blocks page = Ok blocks ->
  exists items w',
    extract_text_blocks page ignore_bboxes w = (Ok items, w')
    /\ map (fun it => (item_type it, item_bbox it, item_text it)) items
       = map (fun b => (paragraph, Some (block_bbox b),
                        Some (extract_clean_text b)))
             (filter (kept ignore_bboxes) blocks)
    /\ (forall block,
          In block blocks -> is_text_block block = true ->
          (exists bbox, In bbox ignore_bboxes
                        /\ intersects bbox (block_bbox block) = true) ->
          ~ exists it, In it items /\ item_bbox it = Some (block_bbox block))
    /\ (forall block,
          In block blocks -> is_text_block block = true ->
          (forall bbox, In bbox ignore_bboxes ->
                        intersects bbox (block_bbox block) = false) ->
          extract_clean_text block <> ""%string ->
          exists it, In it items
                     /\ item_type it = paragraph
                     /\ item_bbox it = Some (block_bbox block)
                     /\ item_text it = Some (extract_clean_text block)).
Proof.
  intros Hblocks.
  destruct (text_blocks_loop_ok ignore_bboxes blocks [] w)
    as (items & w' & Hrun & _ & Hmap).
  exists items, w'. split; [|split; [exact Hmap | split]].
  - now rewrite (extract_text_blocks_eq _ _ w Hblocks).
  - intros block _ _ Hover [it [Hin Hbox]].
    apply (in_map (fun it => (item_type it, item_bbox it, item_text it)))
      in Hin.
    rewrite Hmap in Hin. apply in_map_iff in Hin.
    destruct Hin as (b & Hb & Hkept). apply filter_In in Hkept.
    destruct Hkept as [_ Hkept]. unfold kept in Hkept.
    apply andb_true_iff in Hkept. destruct Hkept as [Hkept _].
    apply andb_true_iff in Hkept. destruct Hkept as [_ Hnone].
    apply negb_true_iff in Hnone.
    assert (Hsame : block_bbox b = block_bbox block) by congruence.
    destruct Hover as (bbox & Hbin & Hint).
    rewrite overlaps_none_iff in Hnone. specialize (Hnone bbox Hbin).
    rewrite Hsame in Hnone. congruence.
  - intros block Hin Htext Hnone Hne.
    assert (Hkept : kept ignore_bboxes block = true).
    { unfold kept. rewrite Htext.
      rewrite (proj2 (overlaps_none_iff ignore_bboxes block) Hnone).
      destruct (extract_clean_text block); [congruence | reflexivity]. }
    assert (Hg : In (paragraph, Some (block_bbox block),
                     Some (extract_clean_text block))
                    (map (fun it => (item_type it, item_bbox it, item_text it))
                         items)).
    { rewrite Hmap.
      apply (in_map (fun b => (paragraph, Some (block_bbox b),
                               Some (extract_clean_text b)))).
      apply filter_In. auto. }
    apply in_map_iff in Hg. destruct Hg as (it & Heq & Hit).
    exists it. injection Heq as H1 H2 H3. auto.
Qed.

(** C10. A block whose box intersects a suppression box is dropped before
    its style is looked at: it leaves the world, and so the tracker, as it
    was, and the page is read as if the block were not on it. *)
Theorem C10_suppressed_block_leaves_tracker (ignore_bboxes : list Rect)
    (block : Block) (w : World) :
  (exists bbox, In bbox ignore_bboxes
                /\ intersects bbox (block_bbox block) = true) ->
  text_block_step ignore_bboxes block w = (Ok None, w)
  /\ forall (page page' : Page) (before after : list Block),
       pg_get_text_blocks page = Ok (before ++ block :: after) ->
       pg_get_text_blocks page' = Ok (before ++ after) ->
       extract_text_blocks page ignore_bboxes w
       = extract_text_blocks page' ignore_bboxes w.
Proof.
  intros Hover. apply overlaps_any_iff in Hover.
  assert (Hskip : forall w0, text_block_step ignore_bboxes block w0
                             = (Ok None, w0)).
  { intros w0. apply text_block_step_skip. unfold kept. rewrite Hover.
    now rewrite andb_false_r. }
  split; [apply Hskip|].
  intros page page' before after Hp Hp'.
  rewrite (extract_text_blocks_eq _ _ w Hp), (extract_text_blocks_eq _ _ w Hp').
  rewrite !text_blocks_loop_app.
  destruct (text_blocks_loop ignore_bboxes before [] w) as [[acc'|e] w1];
    [|reflexivity].
  simpl. unfold bind. now rewrite Hskip.
Qed.

(** C2. A block that is kept (a text block that meets no suppression box
    and has text left) is emitted as a paragraph stamped with the tracker
    as this same block leaves it: after a heading-major block the section
    is the block's text and the subsection is null, after a heading-minor
    block the subsection is the block's text and the section is unchanged,
    after any other block the tracker is unchanged.  The four blocks
    H1 "Intro", P "a", H2 "Background", P "b" give four paragraphs labelled
    (Intro, null), (Intro, null), (Intro, Background), (Intro, Background),
    whatever the tracker held before. *)
Theorem C2_headings_move_tracker_items_are_paragraphs :
  (forall ignore_bboxes block w,
     kept ignore_bboxes block = true ->
     exists item w',
       text_block_step ignore_bboxes block w = (Ok (Some item), w')
       /\ item_type item = paragraph
       /\ item_text item = Some (extract_clean_text block)
       /\ item_section item = current_section (self w')
       /\ item_sub_section item = current_sub_section (self w')
       /\ (main_style block = Style_h1 ->
           current_section (self w') = extract_clean_text block
           /\ current_sub_section (self w') = None)
       /\ (main_style block = Style_h2 ->
           current_sub_section (self w') = Some (extract_clean_text block)
           /\ current_section (self w') = current_section (self w))
       /\ (main_style block = Style_p -> self w' = self w))
  /\ (forall page w,
        pg_get_text_blocks page = Ok intro_blocks ->
        exists items w',
          extract_text_blocks page [] w = (Ok items, w')
          /\ map labels items
             = [ (paragraph, Some "Intro", "Intro", None);
                 (paragraph, Some "a", "Intro", None);
                 (paragraph, Some "Background", "Intro", Some "Background");
                 (paragraph, Some "b", "Intro", Some "Background") ]%string).
Proof.
  split.
  - intros ignore_bboxes block w Hkept.
    eexists _, _. rewrite text_block_step_eq, Hkept. simpl.
    split; [reflexivity|]. simpl.
    repeat split; try reflexivity; try intros Hs;
      match goal with Hs : main_style block = _ |- _ => now rewrite Hs end.
  - intros page w Hp. rewrite (extract_text_blocks_eq _ _ w Hp).
    eexists _, _. split; reflexivity.
Qed.

End Reconciler.

(* ===================================================================== *)
(** * Table detector *)
(* ===================================================================== *)

Section TableDetector.

Context {C : Collaborators}.

(** No row survives cleaning exactly when every cell is blank. *)
Lemma no_row_survives_iff (df : DataFrame) :
  final_table_data df = []
  <-> Forall (Forall (fun cell => PyStr.strip cell = ""%string)) (df_values df).
Proof.
  unfold final_table_data. induction (df_values df) as [|row rows IH]; simpl.
  - split; [constructor | reflexivity].
  - assert (Hrow : nonempty (clean_row row) = false
                   <-> Forall (fun cell => PyStr.strip cell = ""%string) row).
    { unfold clean_row. clear. induction row as [|c row IHr]; simpl.
      - split; [constructor | reflexivity].
      - destruct (PyStr.strip c) eqn:E; simpl.
        + rewrite IHr. split; [now constructor | now inversion 1].
        + split; [discriminate | inversion 1; congruence]. }
    destruct (nonempty (clean_row row)) eqn:E.
    + split; [discriminate|]. inversion 1; subst.
      apply Hrow in H2. discriminate.
    + rewrite IH. split.
      * intros H. constructor; [now apply Hrow | exact H].
      * now inversion 1.
Qed.

(** One candidate, in one equation. *)
Lemma tables_step_eq (me : PDFParser) (page_height : Q)
    (tables_data : list Item) (ignore_bboxes : list Rect) (t : Table) :
  tables_step me page_height (tables_data, ignore_bboxes) t
  = (if discarded t then tables_data
     else tables_data ++ [table_item me page_height t],
     if shape_rejected t then ignore_bboxes
     else ignore_bboxes ++ [convert_bbox page_height t]).
Proof.
  unfold tables_step, discarded, shape_rejected, shape. simpl.
  destruct (df_columns (table_df t) <=? 1)%nat; simpl; [reflexivity|].
  destruct ((10 <? List.length (df_values (table_df t)))%nat
            && (df_columns (table_df t) <? 3)%nat); simpl; [reflexivity|].
  now destruct (nonempty (final_table_data (table_df t))).
Qed.

(** The whole loop: one item per candidate that is not discarded, one box
    per candidate whose shape is not rejected, both in candidate order. *)
Lemma tables_loop_eq (me : PDFParser) (page_height : Q) (tables : list Table)
    (tables_data : list Item) (ignore_bboxes : list Rect) :
  fold_left (tables_step me page_height) tables (tables_data, ignore_bboxes)
  = (tables_data
       ++ map (table_item me page_height)
              (filter (fun t => negb (discarded t)) tables),
     ignore_bboxes
       ++ map (convert_bbox page_height)
              (filter (fun t => negb (shape_rejected t)) tables)).
Proof.
  revert tables_data ignore_bboxes.
  induction tables as [|t tables IH]; intros tables_data ignore_bboxes.
  - simpl. now rewrite !app_nil_r.
  - cbn [fold_left filter]. rewrite tables_step_eq, IH.
    destruct (discarded t), (shape_rejected t); cbn [negb map];
      now rewrite <- ?app_assoc.
Qed.

(** The table detector never raises and never touches the world. *)
Lemma extract_tables_total (pdf_path : string) (page_num : nat)
    (page_height : Q) (w : World) :
  exists tables_data ignore_bboxes,
    extract_tables pdf_path page_num page_height w
    = (Ok (tables_data, ignore_bboxes), w)
    /\ Forall (fun it => exists b, item_bbox it = Some b) tables_data.
Proof.
  unfold extract_tables. run.
  destruct (camelot_read_pdf pdf_path (page_num + 1)) as [tables|e].
  - rewrite tables_loop_eq. simpl. eexists _, _. split; [reflexivity|].
    apply Forall_forall. intros it Hin. apply in_map_iff in Hin.
    destruct Hin as (t & <- & _). simpl. eauto.
  - eexists _, _. split; [reflexivity | constructor].
Qed.

(** A candidate that passes the shape filter and has no row left adds no
    item, and its box stays in the suppression list: the box is appended
    before the cells are cleaned. *)
Lemma blank_candidate_keeps_box (me : PDFParser) (page_height : Q)
    (tables_data : list Item) (ignore_bboxes : list Rect) (t : Table) :
  shape_rejected t = false ->
  final_table_data (table_df t) = [] ->
  tables_step me page_height (tables_data, ignore_bboxes) t
  = (tables_data, ignore_bboxes ++ [convert_bbox page_height t]).
Proof.
  intros Hs Hf. rewrite tables_step_eq. unfold discarded.
  now rewrite Hs, Hf.
Qed.

(** The filter, candidate by candidate.  A candidate is dropped, item and
    box, when its column count is at most 1 or its row count is above 10
    with fewer than 3 columns; it adds no table item when no row is left
    after cell cleaning; any other candidate adds its table item and its
    box.  So 12 rows by 2 columns is
    always dropped and 3 rows by 3 columns with a row left after cleaning
    is kept.  Over a page, the table items are those of the candidates
    that are not discarded, in candidate order. *)
Lemma table_candidates_filter :
  (forall me page_height tables_data ignore_bboxes t,
     let rows := fst (shape (table_df t)) in
     let columns := snd (shape (table_df t)) in
     let out := tables_step me page_height (tables_data, ignore_bboxes) t in
     ((columns <= 1 \/ (rows > 10 /\ columns < 3))%nat ->
      out = (tables_data, ignore_bboxes))
     /\ (final_table_data (table_df t) = [] -> fst out = tables_data)
     /\ (~ (columns <= 1 \/ (rows > 10 /\ columns < 3)
           \/ final_table_data (table_df t) = [])%nat ->
         out = (tables_data ++ [table_item me page_height t],
                ignore_bboxes ++ [convert_bbox page_height t]))
     /\ (rows = 12 -> columns = 2 -> out = (tables_data, ignore_bboxes))%nat
     /\ (rows = 3 -> columns = 3 -> final_table_data (table_df t) <> [] ->
         out = (tables_data ++ [table_item me page_height t],
                ignore_bboxes ++ [convert_bbox page_height t]))%nat)
  /\ (forall pdf_path page_num page_height tables w,
        camelot_read_pdf pdf_path (page_num + 1) = Ok tables ->
        exists ignore_bboxes,
          extract_tables pdf_path page_num page_height w
          = (Ok (map (table_item (self w) page_height)
                     (filter (fun t => negb (discarded t)) tables),
                 ignore_bboxes), w))
  /\ (forall t,
        discarded t = true
        <-> (snd (shape (table_df t)) <= 1
             \/ (fst (shape (table_df t)) > 10
                 /\ snd (shape (table_df t)) < 3)
             \/ final_table_data (table_df t) = [])%nat).
Proof.
  assert (Hshape : forall t,
            shape_rejected t = true
            <-> (snd (shape (table_df t)) <= 1
                 \/ (fst (shape (table_df t)) > 10
                     /\ snd (shape (table_df t)) < 3))%nat).
  { intros t. unfold shape_rejected, shape. simpl.
    rewrite orb_true_iff, andb_true_iff, Nat.leb_le, !Nat.ltb_lt.
    unfold gt. tauto. }
  assert (Hblank : forall t,
            nonempty (final_table_data (table_df t)) = false
            <-> final_table_data (table_df t) = []).
  { intros t. destruct (final_table_data (table_df t));
      simpl; split; congruence. }
  assert (Hdisc : forall t,
            discarded t = true
            <-> (snd (shape (table_df t)) <= 1
                 \/ (fst (shape (table_df t)) > 10
                     /\ snd (shape (table_df t)) < 3)
                 \/ final_table_data (table_df t) = [])%nat).
  { intros t. unfold discarded.
    rewrite orb_true_iff, negb_true_iff, Hshape, Hblank. tauto. }
  split; [|split; [|exact Hdisc]].
  - intros me page_height tables_data ignore_bboxes t rows columns out.
    assert (Hout : out = (if discarded t then tables_data
                          else tables_data ++ [table_item me page_height t],
                          if shape_rejected t then ignore_bboxes
                          else ignore_bboxes
                                 ++ [convert_bbox page_height t])).
    { unfold out. apply tables_step_eq. }
    assert (Hkeep : ~ (columns <= 1 \/ (rows > 10 /\ columns < 3)
                       \/ final_table_data (table_df t) = [])%nat ->
                    out = (tables_data ++ [table_item me page_height t],
                           ignore_bboxes ++ [convert_bbox page_height t])).
    { intros H. rewrite Hout.
      destruct (discarded t) eqn:Ed.
      - exfalso. apply H. now apply Hdisc.
      - destruct (shape_rejected t) eqn:Es; [|reflexivity].
        exfalso. apply H. apply Hshape in Es. fold rows columns in Es. tauto. }
    assert (Hdrop : (columns <= 1 \/ (rows > 10 /\ columns < 3))%nat ->
                    out = (tables_data, ignore_bboxes)).
    { intros H. rewrite Hout.
      assert (Es : shape_rejected t = true) by now apply Hshape.
      assert (Ed : discarded t = true)
        by (unfold discarded; now rewrite Es).
      now rewrite Es, Ed. }
    split; [exact Hdrop|]. split; [|split; [exact Hkeep|split]].
    + intros H. rewrite Hout. simpl.
      assert (discarded t = true) as -> by (apply Hdisc; tauto). reflexivity.
    + intros Hr Hc. apply Hdrop. lia.
    + intros Hr Hc Hne. apply Hkeep. intros [H | [H | H]];
        [lia | lia | contradiction].
  - intros pdf_path page_num page_height tables w Hread.
    unfold extract_tables. run. rewrite Hread, tables_loop_eq. simpl.
    eexists. reflexivity.
Qed.

(** C6. When [camelot.read_pdf] raises, the table detector returns no
    table item and no bounding box, without raising and without touching
    the world. *)
Theorem C6_table_failure_swallowed (pdf_path : string) (page_num : nat)
    (page_height : Q) (e : exn) (w : World) :
  camelot_read_pdf pdf_path (page_num + 1) = Raise e ->
  extract_tables pdf_path page_num page_height w = (Ok ([], []), w).
Proof. intros Hread. unfold extract_tables. run. now rewrite Hread. Qed.

End TableDetector.

(* ===================================================================== *)
(** * [sorted] is the stable sort *)
(* ===================================================================== *)

Section StableSort.

Variable A : Type.
Variable key : A -> Q.

Lemma Qle_bool_false (a b : Q) : Qle_bool a b = false -> (b < a)%Q.
Proof.
  intros H. apply Qnot_le_lt. intros Hle.
  apply Qle_bool_iff in Hle. congruence.
Qed.

Lemma insert_by_perm (x : A) (l : list A) :
  Permutation (insert_by key x l) (x :: l).
Proof.
  induction l as [|y r IH]; simpl.
  - apply Permutation_refl.
  - destruct (Qle_bool (key x) (key y)).
    + apply Permutation_refl.
    + apply perm_trans with (y :: x :: r).
      * now apply perm_skip.
      * apply perm_swap.
Qed.

Lemma sorted_perm (l : list A) : Permutation (sorted key l) l.
Proof.
  induction l as [|x l IH]; simpl.
  - apply perm_nil.
  - apply perm_trans with (x :: sorted key l).
    + apply insert_by_perm.
    + now apply perm_skip.
Qed.

Lemma insert_by_ascending (x : A) (l : list A) :
  StronglySorted (key_le key) l ->
  StronglySorted (key_le key) (insert_by key x l).
Proof.
  induction 1 as [|y r Hr IH Hy]; simpl.
  - repeat constructor.
  - destruct (Qle_bool (key x) (key y)) eqn:E.
    + apply Qle_bool_iff in E. constructor.
      * now constructor.
      * constructor; [exact E|].
        apply Forall_forall. intros z Hz.
        rewrite Forall_forall in Hy. specialize (Hy z Hz).
        unfold key_le in *. now apply Qle_trans with (key y).
    + apply Qle_bool_false in E. constructor; [exact IH|].
      apply (Permutation_Forall (Permutation_sym (insert_by_perm x r))).
      constructor; [|exact Hy]. unfold key_le. now apply Qlt_le_weak.
Qed.

Lemma sorted_ascending (l : list A) :
  StronglySorted (key_le key) (sorted key l).
Proof.
  induction l as [|x l IH]; simpl.
  - constructor.
  - now apply insert_by_ascending.
Qed.

(** Insertion never moves an element past one of the same key. *)
Lemma insert_by_filter (k : Q) (x : A) (l : list A) :
  filter (has_key key k) (insert_by key x l)
  = filter (has_key key k) (x :: l).
Proof.
  induction l as [|y r IH]; [reflexivity|].
  cbn [insert_by]. destruct (Qle_bool (key x) (key y)) eqn:E; [reflexivity|].
  cbn [filter] in *. rewrite IH.
  destruct (has_key key k x) eqn:Hx, (has_key key k y) eqn:Hy;
    try reflexivity.
  exfalso. unfold has_key in *.
  apply Qeq_bool_iff in Hx, Hy. apply Qle_bool_false in E.
  rewrite Hx, Hy in E. now apply Qlt_irrefl in E.
Qed.

(** Stability: at each key, the elements are in the order they came in. *)
Lemma sorted_stable (k : Q) (l : list A) :
  filter (has_key key k) (sorted key l) = filter (has_key key k) l.
Proof.
  induction l as [|x l IH]; [reflexivity|].
  cbn [sorted fold_right]. rewrite insert_by_filter.
  cbn [filter]. fold (sorted key l). now rewrite IH.
Qed.

Lemma has_key_refl (a : A) : has_key key (key a) a = true.
Proof. unfold has_key. apply Qeq_bool_refl. Qed.

Lemma filter_has_key_In (a : A) (l : list A) :
  In a l -> In a (filter (has_key key (key a)) l).
Proof.
  intros H. apply filter_In. split; [exact H | apply has_key_refl].
Qed.

(** Two ascending lists with the same elements in the same order at every
    key are the same list: ascending order and stability leave one answer,
    so any stable sort computes [sorted]. *)
Lemma stable_sort_unique (s1 s2 : list A) :
  StronglySorted (key_le key) s1 ->
  StronglySorted (key_le key) s2 ->
  (forall k, filter (has_key key k) s1 = filter (has_key key k) s2) ->
  s1 = s2.
Proof.
  intros H1. revert s2. induction H1 as [|a r1 Hr1 IH Ha]; intros s2 H2 Hf.
  - destruct s2 as [|b r2]; [reflexivity|].
    specialize (Hf (key b)). cbn [filter] in Hf.
    rewrite has_key_refl in Hf. discriminate.
  - destruct s2 as [|b r2].
    + specialize (Hf (key a)). cbn [filter] in Hf.
      rewrite has_key_refl in Hf. discriminate.
    + inversion H2 as [|b' r2' Hr2 Hb]; subst.
      assert (Hab : (key a <= key b)%Q).
      { assert (Hin : In b (a :: r1)).
        { pose proof (filter_has_key_In b (b :: r2) (in_eq _ _)) as Hi.
          rewrite <- Hf in Hi. now apply filter_In in Hi. }
        destruct Hin as [-> | Hin]; [apply Qle_refl|].
        rewrite Forall_forall in Ha. exact (Ha b Hin). }
      assert (Hba : (key b <= key a)%Q).
      { assert (Hin : In a (b :: r2)).
        { pose proof (filter_has_key_In a (a :: r1) (in_eq _ _)) as Hi.
          rewrite Hf in Hi. now apply filter_In in Hi. }
        destruct Hin as [-> | Hin]; [apply Qle_refl|].
        rewrite Forall_forall in Hb. exact (Hb a Hin). }
      assert (Hk : (key a == key b)%Q) by now apply Qle_antisym.
      assert (Heq : a = b).
      { specialize (Hf (key a)). cbn [filter] in Hf.
        rewrite has_key_refl in Hf.
        assert (has_key key (key a) b = true) as Hb'
          by (apply Qeq_bool_iff; now symmetry).
        rewrite Hb' in Hf. congruence. }
      subst b. f_equal. apply IH; [exact Hr2|].
      intros k. specialize (Hf k). cbn [filter] in Hf.
      destruct (has_key key k a); congruence.
Qed.

End StableSort.

(* ===================================================================== *)
(** * Page orchestrator *)
(* ===================================================================== *)

Section PageOrchestrator.

Context {C : Collaborators}.

(** The image loop leaves the world as it finds it, whether it returns or
    raises. *)
Lemma images_loop_world (page : Page) (imgs : list Image)
    (images_data : list Item) (ignore_bboxes : list Rect) (w : World) :
  snd (images_loop page imgs images_data ignore_bboxes w) = w.
Proof.
  revert images_data ignore_bboxes.
  induction imgs as [|img imgs IH]; intros images_data ignore_bboxes.
  - reflexivity.
  - simpl. unfold bind, lift. destruct (image_bbox img) as [r|e].
    + destruct (is_empty r); [apply IH|]. run. apply IH.
    + reflexivity.
Qed.

Lemma images_loop_ok (page : Page) (imgs : list Image)
    (images_data : list Item) (ignore_bboxes : list Rect) (w : World) :
  Forall bbox_answered imgs ->
  exists items boxes,
    images_loop page imgs images_data ignore_bboxes w
    = (Ok (images_data ++ items, ignore_bboxes ++ boxes), w)
    /\ Forall has_bbox items.
Proof.
  intros Himgs. revert images_data ignore_bboxes.
  induction Himgs as [|img imgs [r Hr] _ IH]; intros images_data ignore_bboxes.
  - exists [], []. simpl. unfold ret. rewrite !app_nil_r. now split.
  - simpl. unfold bind, lift. rewrite Hr. destruct (is_empty r).
    + apply IH.
    + run.
      destruct (IH (images_data ++ [chart_item (self w) page r])
                   (ignore_bboxes ++ [r]))
        as (items & boxes & Hrun & Hall).
      exists (chart_item (self w) page r :: items), (r :: boxes).
      rewrite Hrun, <- !app_assoc. split; [reflexivity|].
      constructor; [now exists r | exact Hall].
Qed.

Lemma extract_images_ok (page : Page) (imgs : list Image) (w : World) :
  pg_get_images page = Ok imgs ->
  Forall bbox_answered imgs ->
  exists images_data image_bboxes,
    extract_images page w = (Ok (images_data, image_bboxes), w)
    /\ Forall has_bbox images_data.
Proof.
  intros Hget Himgs. unfold extract_images, bind, lift. rewrite Hget.
  destruct (images_loop_ok page [] [] w Himgs) as (items & boxes & Hrun & H).
  exists items, boxes. now rewrite Hrun.
Qed.

Lemma extract_images_world (page : Page) (w : World) :
  snd (extract_images page w) = w.
Proof.
  unfold extract_images, bind, lift.
  destruct (pg_get_images page) as [imgs|e]; [|reflexivity].
  apply images_loop_world.
Qed.

Lemma extract_text_blocks_ok (page : Page) (ignore_bboxes : list Rect)
    (blocks : list Block) (w : World) :
  pg_get_text_blocks page = Ok blocks ->
  exists text_content w',
    extract_text_blocks page ignore_bboxes w = (Ok text_content, w')
    /\ doc_handle w' = doc_handle w
    /\ Forall has_bbox text_content.
Proof.
  intros Hget. rewrite (extract_text_blocks_eq _ _ w Hget).
  destruct (text_blocks_loop_ok ignore_bboxes blocks [] w)
    as (items & w' & Hrun & Hh & Hmap).
  exists items, w'. repeat split; [exact Hrun | exact Hh |].
  apply Forall_forall. intros it Hin.
  apply (in_map (fun it => (item_type it, item_bbox it, item_text it))) in Hin.
  rewrite Hmap in Hin. apply in_map_iff in Hin.
  destruct Hin as (b & Heq & _). injection Heq as _ Hb _.
  exists (block_bbox b). now symmetry.
Qed.

Lemma extract_text_blocks_handle (page : Page) (ignore_bboxes : list Rect)
    (w : World) :
  doc_handle (snd (extract_text_blocks page ignore_bboxes w)) = doc_handle w.
Proof.
  destruct (pg_get_text_blocks page) as [blocks|e] eqn:Hget.
  - destruct (extract_text_blocks_ok page ignore_bboxes w Hget)
      as (items & w' & Hrun & Hh & _).
    now rewrite Hrun.
  - unfold extract_text_blocks, bind, lift. now rewrite Hget.
Qed.

(** The page orchestrator, once its three passes have answered. *)
Lemma parse_page_eq (d : Document) (page_num : nat) (page : Page)
    (w w' : World) (tables_data images_data text_content : list Item)
    (table_bboxes image_bboxes : list Rect) :
  nth_error (doc_pages d) page_num = Some page ->
  extract_tables (doc_name d) page_num (pg_rect_height page) w
  = (Ok (tables_data, table_bboxes), w) ->
  extract_images page w = (Ok (images_data, image_bboxes), w) ->
  extract_text_blocks page (table_bboxes ++ image_bboxes) w
  = (Ok text_content, w') ->
  parse_page d page_num w
  = (Ok (map del_bbox
           (sorted sort_key (tables_data ++ images_data ++ text_content))),
     w').
Proof.
  intros Hpage Ht Hi Hx. unfold parse_page, doc_getitem. rewrite Hpage.
  rewrite (bind_ok _ _ w (a := page) eq_refl).
  rewrite (bind_ok _ _ w Ht). rewrite (bind_ok _ _ w Hi).
  now rewrite (bind_ok _ _ w Hx).
Qed.

(** The handle is not the page orchestrator's to touch. *)
Lemma parse_page_handle (d : Document) (page_num : nat) (w : World) :
  doc_handle (snd (parse_page d page_num w)) = doc_handle w.
Proof.
  unfold parse_page, doc_getitem.
  destruct (nth_error (doc_pages d) page_num) as [page|]; [|reflexivity].
  rewrite (bind_ok _ _ w (a := page) eq_refl).
  destruct (extract_tables_total (doc_name d) page_num (pg_rect_height page) w)
    as (tables_data & table_bboxes & Ht & _).
  rewrite (bind_ok _ _ w Ht).
  pose proof (extract_images_world page w) as Hi.
  destruct (extract_images page w) as [[[images_data image_bboxes]|e] w1] eqn:Ei;
    simpl in Hi; subst w1.
  - rewrite (bind_ok _ _ w Ei).
    pose proof (extract_text_blocks_handle page
                  (table_bboxes ++ image_bboxes) w) as Hx.
    destruct (extract_text_blocks page (table_bboxes ++ image_bboxes) w)
      as [[text_content|e] w2] eqn:Ex; simpl in Hx.
    + now rewrite (bind_ok _ _ w Ex).
    + now rewrite (bind_raise _ _ w Ex).
  - now rewrite (bind_raise _ _ w Ei).
Qed.

Lemma item_bbox_del_bbox (it : Item) : item_bbox (del_bbox it) = None.
Proof. reflexivity. Qed.

(** C8. On a page whose images and text blocks PyMuPDF lists,
    [parse_page] returns: its answer is the tables, then the images, then
    the paragraphs, rearranged into ascending order of the y-coordinate of
    the top edge of each item's box, items with the same top edge staying
    in that order of concatenation, and with the box then removed from
    every item. *)
Theorem C8_page_sorted_stably_without_bbox (d : Document) (page_num : nat)
    (page : Page) (imgs : list Image) (blocks : list Block) (w : World) :
  nth_error (doc_pages d) page_num = Some page ->
  pg_get_images page = Ok imgs ->
  Forall bbox_answered imgs ->
  pg_get_text_blocks page = Ok blocks ->
  exists tables_data table_bboxes images_data image_bboxes text_content w' s,
    extract_tables (doc_name d) page_num (pg_rect_height page) w
    = (Ok (tables_data, table_bboxes), w)
    /\ extract_images page w = (Ok (images_data, image_bboxes), w)
    /\ extract_text_blocks page (table_bboxes ++ image_bboxes) w
       = (Ok text_content, w')
    /\ parse_page d page_num w = (Ok (map del_bbox s), w')
    /\ Permutation s (tables_data ++ images_data ++ text_content)
    /\ Forall (fun it => exists b, item_bbox it = Some b
                                   /\ sort_key it = y0 b) s
    /\ StronglySorted (key_le sort_key) s
    /\ (forall y,
          filter (has_key sort_key y) s
          = filter (has_key sort_key y) tables_data
            ++ filter (has_key sort_key y) images_data
            ++ filter (has_key sort_key y) text_content)
    /\ Forall (fun it => item_bbox it = None) (map del_bbox s).
Proof.
  intros Hpage Hget Himgs Htext.
  destruct (extract_tables_total (doc_name d) page_num (pg_rect_height page) w)
    as (tables_data & table_bboxes & Ht & Htb).
  destruct (extract_images_ok page w Hget Himgs)
    as (images_data & image_bboxes & Hi & Hib).
  destruct (extract_text_blocks_ok page (table_bboxes ++ image_bboxes) w Htext)
    as (text_content & w' & Hx & _ & Hxb).
  exists tables_data, table_bboxes, images_data, image_bboxes, text_content, w',
    (sorted sort_key (tables_data ++ images_data ++ text_content)).
  split; [exact Ht|]. split; [exact Hi|]. split; [exact Hx|].
  split; [now apply parse_page_eq with page table_bboxes image_bboxes|].
  split; [apply sorted_perm|].
  split.
  { apply (Permutation_Forall (Permutation_sym (sorted_perm sort_key _))).
    apply Forall_forall. intros it Hin.
    assert (Hb : has_bbox it).
    { rewrite !in_app_iff in Hin. rewrite Forall_forall in Htb, Hib, Hxb.
      destruct Hin as [H | [H | H]];
        [apply (Htb it H) | apply (Hib it H) | apply (Hxb it H)]. }
    destruct Hb as [b Hb]. exists b. split; [exact Hb|].
    unfold sort_key. now rewrite Hb. }
  split; [apply sorted_ascending|].
  split; [intros y; now rewrite sorted_stable, !filter_app|].
  apply Forall_forall. intros it Hin. apply in_map_iff in Hin.
  destruct Hin as (it0 & <- & _). reflexivity.
Qed.

End PageOrchestrator.

(* ===================================================================== *)
(** * Document orchestrator *)
(* ===================================================================== *)

Section DocumentOrchestrator.

Context {C : Collaborators}.

(** The page loop over two runs of page numbers is the loop over the
    first, then the loop over the second from the world the first ended
    in. *)
Lemma parse_pages_app (d : Document) (nums1 nums2 : list nat)
    (out : list PageOut) (w : World) :
  parse_pages d (nums1 ++ nums2) out w
  = match parse_pages d nums1 out w with
    | (Ok out', w') => parse_pages d nums2 out' w'
    | (Raise e, w') => (Raise e, w')
    end.
Proof.
  revert out w. induction nums1 as [|n nums1 IH]; intros out w.
  - reflexivity.
  - simpl. unfold bind.
    destruct (parse_page d n w) as [[page_content|e] w1]; [apply IH|].
    reflexivity.
Qed.

Lemma parse_pages_handle (d : Document) (nums : list nat)
    (out : list PageOut) (w : World) :
  doc_handle (snd (parse_pages d nums out w)) = doc_handle w.
Proof.
  revert out w. induction nums as [|n nums IH]; intros out w.
  - reflexivity.
  - simpl. unfold bind. pose proof (parse_page_handle d n w) as Hn.
    destruct (parse_page d n w) as [[page_content|e] w1]; simpl in Hn.
    + now rewrite IH.
    + exact Hn.
Qed.

(** Inside [parse_page] the text pass runs in the world the page was
    entered in, and the world it ends in is the one the page is left in:
    the table and image passes read the tracker and write nothing. *)
Lemma parse_page_text_pass (d : Document) (page_num : nat) (page : Page)
    (w : World) :
  nth_error (doc_pages d) page_num = Some page ->
  exists tables_data table_bboxes,
    extract_tables (doc_name d) page_num (pg_rect_height page) w
    = (Ok (tables_data, table_bboxes), w)
    /\ snd (extract_images page w) = w
    /\ forall images_data image_bboxes,
         fst (extract_images page w) = Ok (images_data, image_bboxes) ->
         parse_page d page_num w
         = (text_content <-
              extract_text_blocks page (table_bboxes ++ image_bboxes) ;;
            ret (map del_bbox
                   (sorted sort_key
                      (tables_data ++ images_data ++ text_content)))) w.
Proof.
  intros Hpage.
  destruct (extract_tables_total (doc_name d) page_num (pg_rect_height page) w)
    as (tables_data & table_bboxes & Ht & _).
  exists tables_data, table_bboxes. split; [exact Ht|].
  split; [apply extract_images_world|].
  intros images_data image_bboxes Hi.
  pose proof (extract_images_world page w) as Hw.
  destruct (extract_images page w) as [r w1] eqn:Ei. simpl in Hi, Hw.
  subst r w1. unfold parse_page, doc_getitem. rewrite Hpage.
  rewrite (bind_ok _ _ w (a := page) eq_refl).
  rewrite (bind_ok _ _ w Ht). now rewrite (bind_ok _ _ w Ei).
Qed.

(** What [parse] does once the file is there and opens. *)
Lemma parse_opened (pdf_path : string) (d : Document) (w : World) :
  os_path_exists pdf_path = true ->
  fitz_open pdf_path = Ok d ->
  parse pdf_path w
  = match parse_pages d (seq 0 (List.length (doc_pages d))) []
            {| self := self w; doc_handle := Opened |} with
    | (Ok out, w') =>
        (Ok (Some {| file_path := pdf_path;
                     total_pages := List.length (doc_pages d);
                     pages := out |}),
         {| self := self w'; doc_handle := Closed |})
    | (Raise e, w') => (Raise e, w')
    end.
Proof.
  intros Hex Hopen. unfold parse. rewrite Hex, Hopen. run.
  now destruct (parse_pages d _ [] _) as [[out|e] w'].
Qed.

(** When every page is processed the handle is closed. *)
Lemma parse_closes_on_return (pdf_path : string) (d : Document)
    (w w' : World) (o : option Output) :
  os_path_exists pdf_path = true ->
  fitz_open pdf_path = Ok d ->
  parse pdf_path w = (Ok o, w') ->
  doc_handle w' = Closed.
Proof.
  intros Hex Hopen. rewrite (parse_opened pdf_path w Hex Hopen).
  destruct (parse_pages d _ [] _) as [[out|e] w1]; [|discriminate].
  now intros [= _ <-].
Qed.

(** When a page raises, [parse] raises with the handle still open: no
    handler stands between the page loop and [doc.close()]. *)
Lemma parse_raise_leaves_open (pdf_path : string) (d : Document)
    (w w' : World) (e : exn) :
  os_path_exists pdf_path = true ->
  fitz_open pdf_path = Ok d ->
  parse pdf_path w = (Raise e, w') ->
  doc_handle w' = Opened.
Proof.
  intros Hex Hopen. rewrite (parse_opened pdf_path w Hex Hopen).
  pose proof (parse_pages_handle d (seq 0 (List.length (doc_pages d))) []
                {| self := self w; doc_handle := Opened |}) as Hh.
  destruct (parse_pages d _ [] _) as [[out|e'] w1]; [discriminate|].
  simpl in Hh. now intros [= _ <-].
Qed.

End DocumentOrchestrator.

(** C3. A parse starts with the tracker at ("Default", null), set when the
    parser is made; opening the document leaves it alone, the page loop
    hands the world one page ends in to the next page, and within a page
    the text blocks are read in the world the page is entered in and leave
    the world the page ends in.  So nothing resets the tracker at a page
    boundary: in the two-page document whose first page holds the heading
    "Intro" and whose second page holds no heading, the first paragraph of
    the second page is labelled with section "Intro". *)
Theorem C3_tracker_persists_across_pages :
  (forall (C : Collaborators) pdf_path,
     parse_pdf pdf_path
     = parse pdf_path
         {| self := {| current_section := "Default";
                       current_sub_section := None |};
            doc_handle := NotOpened |})
  /\ (forall (C : Collaborators) pdf_path d w,
        os_path_exists pdf_path = true ->
        fitz_open pdf_path = Ok d ->
        parse pdf_path w
        = match parse_pages d (seq 0 (List.length (doc_pages d))) []
                  {| self := self w; doc_handle := Opened |} with
          | (Ok out, w') =>
              (Ok (Some {| file_path := pdf_path;
                           total_pages := List.length (doc_pages d);
                           pages := out |}),
               {| self := self w'; doc_handle := Closed |})
          | (Raise e, w') => (Raise e, w')
          end)
  /\ (forall (C : Collaborators) d n m out w,
        parse_pages d (seq 0 (n + S m)) out w
        = match parse_pages d (seq 0 n) out w with
          | (Ok out_n, w_n) =>
              (page_content <- parse_page d n ;;
               parse_pages d (seq (S n) m)
                 (out_n ++ [ {| page_number := n + 1;
                                content := page_content |} ])) w_n
          | (Raise e, w_n) => (Raise e, w_n)
          end)
  /\ (forall (C : Collaborators) d page_num page w,
        nth_error (doc_pages d) page_num = Some page ->
        exists tables_data table_bboxes,
          extract_tables (doc_name d) page_num (pg_rect_height page) w
          = (Ok (tables_data, table_bboxes), w)
          /\ snd (extract_images page w) = w
          /\ forall images_data image_bboxes,
               fst (extract_images page w) = Ok (images_data, image_bboxes) ->
               parse_page d page_num w
               = (text_content <-
                    extract_text_blocks page (table_bboxes ++ image_bboxes) ;;
                  ret (map del_bbox
                         (sorted sort_key
                            (tables_data ++ images_data ++ text_content)))) w)
  /\ (exists out w',
        @parse_pdf (serving two_page_doc) "report.pdf" = (Ok (Some out), w')
        /\ map (fun pg => (page_number pg, map labels (content pg))) (pages out)
           = [ (1%nat, [ (paragraph, Some "preface", "Default", None);
                         (paragraph, Some "Intro", "Intro", None) ]);
               (2%nat, [ (paragraph, Some "body", "Intro", None) ]) ]%string).
Proof.
  split; [reflexivity|].
  split; [intros C pdf_path d w; apply parse_opened|].
  split; [|split].
  - intros C d n m out w. rewrite seq_app, parse_pages_app. reflexivity.
  - intros C d page_num page w. apply parse_page_text_pass.
  - eexists _, _. split; vm_compute; reflexivity.
Qed.

(** C7, on the damaged document.  The file exists and opens; reading the
    text of its second page raises; [parse] then raises in turn and the
    world it leaves has the document handle still open, where the claim
    has it closed.  On the document whose pages are all read, the handle is
    closed. *)
Theorem C7_page_failure_leaves_handle_open :
  @parse_pdf (serving damaged_doc) "damaged.pdf"
  = (Raise (Exception "RuntimeError: cannot read page text"),
     {| self := {| current_section := "Intro"; current_sub_section := None |};
        doc_handle := Opened |})
  /\ doc_handle (snd (@parse_pdf (serving two_page_doc) "report.pdf")) = Closed.
Proof. split; vm_compute; reflexivity. Qed.

(** C5, on a candidate with no row left.  Camelot finds one candidate of
    two columns whose cells are all whitespace, lying over the two lines
    of the page.  The table detector returns no table item for it and
    still returns its box; the page orchestrator then drops both lines of
    text as overlapping, so the page comes out empty and the heading never
    reaches the tracker, where the claim has the candidate discarded.  A
    candidate of one column over the same lines, discarded on its shape,
    leaves neither item nor box, and both lines come out. *)
Theorem C5_blank_candidate_keeps_box_and_hides_text :
  @extract_tables (camelot_finding blank_table) "covered.pdf" 0 842 fresh_world
  = (Ok ([], [ mkRect 0 0 300 100 ]), fresh_world)
  /\ @parse_page (camelot_finding blank_table) covered_doc 0 fresh_world
     = (Ok [], fresh_world)
  /\ @extract_tables (camelot_finding narrow_table) "covered.pdf" 0 842
       fresh_world
     = (Ok ([], []), fresh_world)
  /\ (exists out w',
        @parse_page (camelot_finding narrow_table) covered_doc 0 fresh_world
        = (Ok out, w')
        /\ map labels out
           = [ (paragraph, Some "Results", "Results", None);
               (paragraph, Some "Body text", "Results", None) ]%string
        /\ self w' = {| current_section := "Results";
                        current_sub_section := None |}).
Proof.
  split; [vm_compute; reflexivity|].
  split; [vm_compute; reflexivity|].
  split; [vm_compute; reflexivity|].
  eexists _, _. split; [vm_compute; reflexivity|].
  split; reflexivity.
Qed.

(* ===================================================================== *)
(** * The theorems at sample inputs *)
(* ===================================================================== *)

(** On [mixed_page] with the table box as the one suppression box: the
    block inside the table has no item, the block beside it has one. *)
Lemma C1_overlapping_blocks_suppressed_witness :
  exists items w',
    @extract_text_blocks mixed_collaborators mixed_page
      [ mkRect 0 20 100 30 ] fresh_world = (Ok items, w')
    /\ (~ exists it, In it items
                     /\ item_bbox it = Some (mkRect 50 25 150 35))
    /\ (exists it, In it items
                   /\ item_type it = paragraph
                   /\ item_bbox it = Some (mkRect 200 20 300 30)
                   /\ item_text it = Some "Figures"%string).
Proof.
  destruct (@C1_overlapping_blocks_suppressed mixed_collaborators mixed_page
              [ mkRect 0 20 100 30 ] _ fresh_world eq_refl)
    as (items & w' & Hrun & _ & Hout & Hin).
  exists items, w'. split; [exact Hrun|]. split.
  - apply (Hout (one_span_block (mkRect 50 25 150 35) "2024 17" 10
                   "Times-Roman")).
    + right; right; left; reflexivity.
    + reflexivity.
    + exists (mkRect 0 20 100 30). split; [left; reflexivity | reflexivity].
  - apply (Hin (one_span_block (mkRect 200 20 300 30) "Figures" 10
                  "Times-Roman")).
    + right; left; reflexivity.
    + reflexivity.
    + intros bbox [<- | []]. reflexivity.
    + vm_compute. discriminate.
Defined.

(** The heading step at "Intro", and the four example blocks on a page. *)
Lemma C2_headings_move_tracker_items_are_paragraphs_witness :
  (exists item w',
     @text_block_step (serving two_page_doc) []
       (one_span_block (row_box 0) "Intro" 18 "Times-Roman") fresh_world
     = (Ok (Some item), w')
     /\ item_type item = paragraph
     /\ current_section (self w') = "Intro"%string
     /\ current_sub_section (self w') = None)
  /\ exists items w',
       @extract_text_blocks (serving two_page_doc) (text_page 0 intro_blocks)
         [] fresh_world = (Ok items, w')
       /\ map labels items
          = [ (paragraph, Some "Intro", "Intro", None);
              (paragraph, Some "a", "Intro", None);
              (paragraph, Some "Background", "Intro", Some "Background");
              (paragraph, Some "b", "Intro", Some "Background") ]%string.
Proof.
  destruct (@C2_headings_move_tracker_items_are_paragraphs
              (serving two_page_doc)) as [Hstep Hexample].
  split.
  - destruct (Hstep [] (one_span_block (row_box 0) "Intro" 18 "Times-Roman")
                fresh_world eq_refl)
      as (item & w' & Hrun & Htype & _ & _ & _ & Hmajor & _).
    exists item, w'. split; [exact Hrun|]. split; [exact Htype|].
    apply (Hmajor eq_refl).
  - apply (Hexample (text_page 0 intro_blocks) fresh_world). reflexivity.
Defined.

(** The chain at the boundary between the two pages of [two_page_doc]. *)
Lemma C3_tracker_persists_across_pages_witness :
  snd (@extract_images (serving two_page_doc) (text_page 1
         [ one_span_block (row_box 0) "body" 10 "Times-Roman" ])
         {| self := {| current_section := "Intro";
                       current_sub_section := None |};
            doc_handle := Opened |})
  = {| self := {| current_section := "Intro"; current_sub_section := None |};
       doc_handle := Opened |}
  /\ doc_handle (snd (@parse (serving two_page_doc) "report.pdf" fresh_world))
     = Closed.
Proof.
  destruct C3_tracker_persists_across_pages
    as (_ & Hopened & _ & Hpass & _).
  split.
  - destruct (Hpass (serving two_page_doc) two_page_doc 1%nat
                (text_page 1
                   [ one_span_block (row_box 0) "body" 10 "Times-Roman" ])
                {| self := {| current_section := "Intro";
                              current_sub_section := None |};
                   doc_handle := Opened |} eq_refl)
      as (tables_data & table_bboxes & _ & Himages & _).
    exact Himages.
  - rewrite (Hopened (serving two_page_doc) "report.pdf"%string two_page_doc
               fresh_world eq_refl eq_refl).
    vm_compute. reflexivity.
Defined.

(** The filter at 12 rows by 2 columns and at 3 rows by 3 columns, and a
    page on which Camelot finds both. *)
Lemma table_candidates_filter_at_samples :
  tables_step PDFParser_init 842 ([], []) tall_table = ([], [])
  /\ tables_step PDFParser_init 842 ([], []) square_table
     = ([ table_item PDFParser_init 842 square_table ],
        [ convert_bbox 842 square_table ])
  /\ exists ignore_bboxes,
       @extract_tables
         (plane_collaborators (fun _ => true) (fun _ => Ok mixed_doc)
            (fun _ _ => Ok [ tall_table; square_table ]))
         "mixed.pdf" 0 842 fresh_world
       = (Ok ([ table_item PDFParser_init 842 square_table ], ignore_bboxes),
          fresh_world).
Proof.
  destruct (@table_candidates_filter
              (plane_collaborators (fun _ => true) (fun _ => Ok mixed_doc)
                 (fun _ _ => Ok [ tall_table; square_table ])))
    as (Hstep & Hpage & _).
  split; [|split].
  - destruct (Hstep PDFParser_init 842%Q [] [] tall_table)
      as (_ & _ & _ & Htall & _).
    apply Htall; reflexivity.
  - destruct (Hstep PDFParser_init 842%Q [] [] square_table)
      as (_ & _ & _ & _ & Hsquare).
    apply Hsquare; [reflexivity | reflexivity | vm_compute; discriminate].
  - apply (Hpage "mixed.pdf"%string 0%nat 842%Q
             [ tall_table; square_table ] fresh_world).
    reflexivity.
Defined.

(** Camelot raising on the first page of a document. *)
Lemma C6_table_failure_swallowed_witness :
  @extract_tables camelot_failing "report.pdf" 0 842 fresh_world
  = (Ok ([], []), fresh_world).
Proof.
  apply (@C6_table_failure_swallowed camelot_failing "report.pdf"%string
           0%nat 842%Q (Exception "ValueError: no tables on page")
           fresh_world).
  reflexivity.
Defined.

(** [mixed_page]: the heading at the top, then table, image and paragraph
    of equal top edge in that order, no box left. *)
Lemma C8_page_sorted_stably_without_bbox_witness :
  exists out w',
    @parse_page mixed_collaborators mixed_doc 0 fresh_world = (Ok out, w')
    /\ map item_type out = [ paragraph; table; chart; paragraph ]
    /\ Forall (fun it => item_bbox it = None) out.
Proof.
  assert (Himgs : Forall bbox_answered [ mkImage (Ok (mkRect 110 20 180 30)) ]).
  { constructor; [now exists (mkRect 110 20 180 30) | constructor]. }
  destruct (@C8_page_sorted_stably_without_bbox mixed_collaborators
              mixed_doc 0%nat mixed_page _ _ fresh_world
              eq_refl eq_refl Himgs eq_refl)
    as (tables_data & table_bboxes & images_data & image_bboxes
        & text_content & w' & s & _ & _ & _ & Hrun & _ & _ & _ & _ & Hnone).
  exists (map del_bbox s), w'. split; [exact Hrun|]. split; [|exact Hnone].
  assert (E : map item_type
                (match fst (@parse_page mixed_collaborators mixed_doc 0
                              fresh_world) with
                 | Ok out => out
                 | Raise _ => []
                 end)
              = [ paragraph; table; chart; paragraph ])
    by (vm_compute; reflexivity).
  rewrite Hrun in E. exact E.
Defined.

(** The heading "Results" of [mixed_page], had it lain inside the table. *)
Lemma C10_suppressed_block_leaves_tracker_witness :
  @text_block_step mixed_collaborators [ mkRect 0 20 100 30 ]
    (one_span_block (mkRect 50 25 150 35) "Results" 18 "Times-Roman")
    fresh_world
  = (Ok None, fresh_world).
Proof.
  apply (@C10_suppressed_block_leaves_tracker mixed_collaborators
           [ mkRect 0 20 100 30 ]
           (one_span_block (mkRect 50 25 150 35) "Results" 18 "Times-Roman")
           fresh_world).
  exists (mkRect 0 20 100 30). split; [left; reflexivity | reflexivity].
Defined.

(* ===================================================================== *)
(** * The style classifier on the size as PyMuPDF gives it *)
(* ===================================================================== *)

Section RawSize.

Local Open Scope Q_scope.

(** Where [round] crosses an integer [k]: at [k - 1/2], which itself goes
    to [k] when [k] is even and to [k - 1] when [k] is odd. *)
Lemma py_round_ge (k : Z) (x : Q) :
  (k <= py_round x)%Z
  <-> if Z.even k then inject_Z k - (1 # 2) <= x
      else inject_Z k - (1 # 2) < x.
Proof.
  unfold py_round.
  pose proof (Qfloor_le x) as Hlo. pose proof (Qlt_floor x) as Hhi.
  rewrite inject_Z_plus in Hhi. change (inject_Z 1) with 1 in Hhi.
  set (f := Qfloor x) in *.
  assert (Hup : forall a b : Z, inject_Z a < inject_Z b + 1 -> (a <= b)%Z).
  { intros a b H. assert (H' : inject_Z a < inject_Z (b + 1)).
    { rewrite inject_Z_plus. exact H. }
    rewrite <- Zlt_Qlt in H'. lia. }
  assert (Hdown : forall a b : Z, (a <= b)%Z -> inject_Z a <= inject_Z b).
  { intros a b H. now rewrite <- Zle_Qle. }
  destruct (Qcompare_spec (x - inject_Z f) (1 # 2)) as [He | Hl | Hg].
  - destruct (Z.even f) eqn:Ef; destruct (Z.even k) eqn:Ek.
    + split.
      * intros H. apply Hdown in H. lra.
      * intros H. assert (Hk : (k <= f + 1)%Z).
        { apply Hup. rewrite inject_Z_plus. change (inject_Z 1) with 1. lra. }
        apply Z.even_spec in Ef, Ek. destruct Ef as [a Ha], Ek as [b Hb]. lia.
    + split.
      * intros H. apply Hdown in H. lra.
      * intros H. apply Hup. lra.
    + split.
      * intros H. apply Hdown in H. rewrite inject_Z_plus in H.
        change (inject_Z 1) with 1 in H. lra.
      * intros H. apply Hup. rewrite inject_Z_plus.
        change (inject_Z 1) with 1. lra.
    + split.
      * intros H. assert (Hk : (k <= f)%Z).
        { rewrite <- Z.negb_odd in Ef, Ek. apply negb_false_iff in Ef, Ek.
          apply Z.odd_spec in Ef, Ek. destruct Ef as [a Ha], Ek as [b Hb]. lia. }
        apply Hdown in Hk. lra.
      * intros H. assert (Hk : (k <= f)%Z) by (apply Hup; lra). lia.
  - assert (Hiff : (k <= f)%Z <-> inject_Z k - (1 # 2) < x).
    { split.
      - intros H. apply Hdown in H. lra.
      - intros H. apply Hup. lra. }
    destruct (Z.even k); [|exact Hiff]. rewrite Hiff. split; [lra|].
    intros H. assert (Hk : (k <= f)%Z) by (apply Hup; lra).
    apply Hdown in Hk. lra.
  - assert (Hiff : (k <= f + 1)%Z <-> inject_Z k - (1 # 2) <= x).
    { split.
      - intros H. apply Hdown in H. rewrite inject_Z_plus in H.
        change (inject_Z 1) with 1 in H. lra.
      - intros H. apply Hup. rewrite inject_Z_plus.
        change (inject_Z 1) with 1. lra. }
    destruct (Z.even k); [exact Hiff|]. rewrite Hiff. split; [|lra].
    intros H. assert (Hk : (k <= f + 1)%Z) by (apply Hiff; exact H).
    apply Hdown in Hk. rewrite inject_Z_plus in Hk.
    change (inject_Z 1) with 1 in Hk. lra.
Qed.

Lemma py_round_lt (k : Z) (x : Q) :
  (py_round x < k)%Z
  <-> if Z.even k then x < inject_Z k - (1 # 2)
      else x <= inject_Z k - (1 # 2).
Proof.
  pose proof (py_round_ge k x) as H. destruct (Z.even k).
  - split.
    + intros Hlt. apply Qnot_le_lt. intros Hle. apply H in Hle. lia.
    + intros Hlt. apply Z.nle_gt. intros Hle. apply H in Hle. lra.
  - split.
    + intros Hlt. apply Qnot_lt_le. intros Hle. apply H in Hle. lia.
    + intros Hlt. apply Z.nle_gt. intros Hle. apply H in Hle. lra.
Qed.

End RawSize.

Section RawSizeStyle.

Local Open Scope Q_scope.

Lemma round_above_15 (x : Q) : (15 < py_round x)%Z <-> 31 # 2 <= x.
Proof.
  assert (H : (15 < py_round x)%Z <-> (16 <= py_round x)%Z) by lia.
  rewrite H, (py_round_ge 16 x). cbn. unfold inject_Z. split; intros; lra.
Qed.

Lemma round_from_12 (x : Q) : (12 <= py_round x)%Z <-> 23 # 2 <= x.
Proof. rewrite (py_round_ge 12 x). cbn. unfold inject_Z. split; intros; lra. Qed.

Lemma round_above_12 (x : Q) : (12 < py_round x)%Z <-> 25 # 2 < x.
Proof.
  assert (H : (12 < py_round x)%Z <-> (13 <= py_round x)%Z) by lia.
  rewrite H, (py_round_ge 13 x). cbn. unfold inject_Z. split; intros; lra.
Qed.

(** X1. The classifier on the size as given, rounding included: the style
    is heading-major from 15.5 on; below that it is heading-minor above
    12.5, and from 11.5 to 12.5 when the font is bold; it is paragraph
    below 11.5, and up to 12.5 when the font is not bold. *)
Theorem X1_style_thresholds_on_raw_size (span : Span) :
  (get_text_style span = Style_h1 <-> 31 # 2 <= span_size span)
  /\ (get_text_style span = Style_h2
      <-> span_size span < 31 # 2
          /\ (25 # 2 < span_size span
              \/ (23 # 2 <= span_size span /\ is_bold span = true)))
  /\ (get_text_style span = Style_p
      <-> span_size span < 23 # 2
          \/ (span_size span <= 25 # 2 /\ is_bold span = false)).
Proof.
  unfold get_text_style.
  pose proof (round_above_15 (span_size span)) as H15.
  pose proof (round_from_12 (span_size span)) as H12.
  pose proof (round_above_12 (span_size span)) as H13.
  destruct (Z.ltb_spec 15 (py_round (span_size span))) as [A | A];
  destruct (Z.leb_spec 12 (py_round (span_size span))) as [B | B];
  destruct (Z.ltb_spec 12 (py_round (span_size span))) as [D | D];
  destruct (is_bold span); simpl;
  try (exfalso; lia);
  repeat split; intros;
  try discriminate; try reflexivity;
  repeat match goal with
         | H : _ /\ _ |- _ => destruct H
         | H : _ \/ _ |- _ => destruct H
         end;
  try discriminate;
  try (assert (31 # 2 <= span_size span) by (apply H15; lia));
  try (assert (23 # 2 <= span_size span) by (apply H12; lia));
  try (assert (25 # 2 < span_size span) by (apply H13; lia));
  try (assert (~ 31 # 2 <= span_size span) by (rewrite <- H15; lia));
  try (assert (~ 23 # 2 <= span_size span) by (rewrite <- H12; lia));
  try (assert (~ 25 # 2 < span_size span) by (rewrite <- H13; lia));
  try lra;
  try (left; lra); try (right; lra); try (right; split; [lra | reflexivity]);
  try (split; [lra | left; lra]);
  try (split; [lra | right; split; [lra | reflexivity]]).
Qed.

(** X2. The font name decides only at rounded size 12: two spans of the
    same size are given the same style whatever their fonts, unless the
    size rounds to 12. *)
Theorem X2_font_matters_only_at_12 (span span' : Span) :
  span_size span = span_size span' ->
  py_round (span_size span) <> 12%Z ->
  get_text_style span = get_text_style span'.
Proof.
  intros Hsize Hne. unfold get_text_style. rewrite <- Hsize.
  destruct (Z.ltb_spec 15 (py_round (span_size span))); [reflexivity|].
  destruct (Z.leb_spec 12 (py_round (span_size span))) as [B | B];
  destruct (Z.ltb_spec 12 (py_round (span_size span))) as [D | D];
  try (exfalso; lia);
  destruct (is_bold span), (is_bold span'); reflexivity.
Qed.

End RawSizeStyle.

Lemma X2_font_matters_only_at_12_witness :
  get_text_style (mkSpan None (27 # 2) "Helvetica-Bold")
  = get_text_style (mkSpan None (27 # 2) "Courier").
Proof.
  apply (X2_font_matters_only_at_12
           (mkSpan None (27 # 2) "Helvetica-Bold")
           (mkSpan None (27 # 2) "Courier")).
  - reflexivity.
  - vm_compute. discriminate.
Defined.

(* ===================================================================== *)
(** * More on the text block normaliser *)
(* ===================================================================== *)

Section NormaliserShape.
Import PyStr PyStrFacts.
Local Open Scope string_scope.

Lemma blank_app (a b : string) : blank (a ++ b) = blank a && blank b.
Proof.
  induction a as [|c a IH]; simpl; [reflexivity|].
  now rewrite IH, andb_assoc.
Qed.

Lemma blank_rstrip (s : string) : blank (rstrip s) = blank s.
Proof.
  induction s as [|c r IH]; [reflexivity|].
  simpl. destruct (rstrip r) as [|c' r'] eqn:E.
  - rewrite <- IH. simpl. rewrite andb_true_r.
    destruct (isspace c) eqn:Hc; simpl; [reflexivity|].
    now rewrite Hc.
  - rewrite <- IH. reflexivity.
Qed.

Lemma blank_lstrip (s : string) : blank (lstrip s) = blank s.
Proof.
  induction s as [|c r IH]; [reflexivity|].
  simpl. destruct (isspace c) eqn:Hc; simpl; [exact IH|].
  now rewrite Hc.
Qed.

Lemma lstrip_blank (s : string) : blank s = true -> lstrip s = "".
Proof.
  induction s as [|c r IH]; [reflexivity|].
  simpl. intros H. apply andb_true_iff in H. destruct H as [Hc Hr].
  rewrite Hc. now apply IH.
Qed.

(** [strip] answers the empty string exactly on whitespace. *)
Lemma strip_empty_iff (s : string) : strip s = "" <-> blank s = true.
Proof.
  split.
  - intros H. rewrite <- blank_rstrip, <- blank_lstrip.
    fold (strip s). now rewrite H.
  - intros H. unfold strip. apply lstrip_blank. now rewrite blank_rstrip.
Qed.

Lemma blank_concat_lines (texts : list string) :
  blank (String.concat "" (map (fun t => strip t ++ nl) texts))
  = forallb blank texts.
Proof.
  induction texts as [|t texts IH]; [reflexivity|].
  rewrite map_cons, concat_empty_cons, !blank_app, IH.
  cbn [forallb]. unfold strip. rewrite blank_lstrip, blank_rstrip.
  simpl. now rewrite andb_true_r.
Qed.

(** X3. The normaliser in one expression: strip every line, join the lines
    with single newlines, strip the whole.  Appending a newline after
    every line, as the loop does, comes to the same. *)
Theorem X3_normaliser_closed_form (block : Block) :
  extract_clean_text block
  = strip (String.concat nl (map strip (line_texts block))).
Proof.
  rewrite extract_clean_text_unrolled.
  destruct (line_texts block) as [|t rest] eqn:E; [reflexivity|].
  rewrite <- (map_map strip (fun t0 => t0 ++ nl)).
  rewrite concat_lines by (simpl; congruence).
  apply strip_app_nl.
Qed.

(** X4. The normalised text has no outer whitespace, and it is empty,
    which is when the block is dropped, exactly when every line of the
    block is whitespace only. *)
Theorem X4_empty_text_iff_blank_lines (block : Block) :
  trimmed (extract_clean_text block) = true
  /\ (extract_clean_text block = ""
      <-> Forall (fun t => blank t = true) (line_texts block)).
Proof.
  split; [apply extract_clean_text_trimmed|].
  rewrite extract_clean_text_unrolled, strip_empty_iff, blank_concat_lines.
  rewrite forallb_forall, Forall_forall. reflexivity.
Qed.

End NormaliserShape.

(* ===================================================================== *)
(** * Bold, whatever the letter case *)
(* ===================================================================== *)

Section BoldCase.
Import PyStr PyStrFacts.
Local Open Scope string_scope.

Lemma lower_app (a b : string) : lower (a ++ b) = lower a ++ lower b.
Proof. induction a as [|c a IH]; simpl; [reflexivity | now rewrite IH]. Qed.

(** [lower] works character by character, so a cut of the lowered string
    is a cut of the string. *)
Lemma lower_cut (s x y : string) :
  lower s = x ++ y -> exists a b, s = a ++ b /\ lower a = x /\ lower b = y.
Proof.
  revert s. induction x as [|c x IH]; intros s H.
  - exists "", s. auto.
  - destruct s as [|d s]; [discriminate|].
    simpl in H. injection H as Hc Hs.
    destruct (IH s Hs) as (a & b & -> & Ha & Hb).
    exists (String d a), b. simpl. now rewrite Hc, Ha.
Qed.

(** X5. A font is bold for the classifier exactly when its name holds the
    word "bold" in some mix of upper and lower case: "Bold", "BOLD" and
    "bold" all count, anywhere in the name. *)
Theorem X5_bold_in_any_letter_case (span : Span) :
  is_bold span = true
  <-> exists a m b, span_font span = a ++ m ++ b /\ lower m = "bold".
Proof.
  rewrite is_bold_iff. split.
  - intros (x & y & H). apply lower_cut in H.
    destruct H as (a & r & Hfont & Ha & Hr). apply lower_cut in Hr.
    destruct Hr as (m & b & -> & Hm & Hb). now exists a, m, b.
  - intros (a & m & b & -> & Hm).
    exists (lower a), (lower b). now rewrite !lower_app, Hm.
Qed.

End BoldCase.

(* ===================================================================== *)
(** * What the table detector returns *)
(* ===================================================================== *)

Section TablePostcondition.

Context {C : Collaborators}.

Lemma clean_row_cells (row : list string) : Forall clean_cell (clean_row row).
Proof.
  unfold clean_row. apply Forall_forall. intros cell Hin.
  apply in_map_iff in Hin. destruct Hin as (c & <- & Hc).
  apply filter_In in Hc. destruct Hc as [_ Hc]. split.
  - destruct (PyStr.strip c); [discriminate | congruence].
  - apply PyStrFacts.strip_is_trimmed.
Qed.

(** Every row left by the cleaning has a cell, and every cell left is
    clean. *)
Lemma final_table_data_clean (df : DataFrame) :
  Forall (fun row => row <> [] /\ Forall clean_cell row) (final_table_data df).
Proof.
  unfold final_table_data. apply Forall_forall. intros row Hin.
  apply filter_In in Hin. destruct Hin as [Hin Hne]. split.
  - destruct row; [discriminate | congruence].
  - apply in_map_iff in Hin. destruct Hin as (r & <- & _).
    apply clean_row_cells.
Qed.

Lemma discarded_false (t : Table) :
  discarded t = false ->
  shape_rejected t = false /\ final_table_data (table_df t) <> [].
Proof.
  unfold discarded. intros H. apply orb_false_iff in H.
  destruct H as [Hs Hn]. split; [exact Hs|].
  apply negb_false_iff in Hn.
  destruct (final_table_data (table_df t)); [discriminate | congruence].
Qed.

(** The postcondition of the table detector. *)
Lemma extract_tables_post (pdf_path : string) (page_num : nat)
    (page_height : Q) (w : World) :
  exists tables_data ignore_bboxes,
    extract_tables pdf_path page_num page_height w
    = (Ok (tables_data, ignore_bboxes), w)
    /\ Forall (fun it =>
                 item_type it = table
                 /\ stamped (self w) it
                 /\ (exists bbox, item_bbox it = Some bbox
                                  /\ In bbox ignore_bboxes)
                 /\ exists data,
                      item_table_data it = Some data
                      /\ data <> []
                      /\ Forall (fun row => row <> []
                                            /\ Forall clean_cell row) data)
              tables_data.
Proof.
  unfold extract_tables. run.
  destruct (camelot_read_pdf pdf_path (page_num + 1)) as [tables|e].
  - rewrite tables_loop_eq. simpl. eexists _, _. split; [reflexivity|].
    apply Forall_forall. intros it Hin. apply in_map_iff in Hin.
    destruct Hin as (t & <- & Ht). apply filter_In in Ht.
    destruct Ht as [Ht Hd]. apply negb_true_iff in Hd.
    apply discarded_false in Hd. destruct Hd as [Hs Hne].
    split; [reflexivity|]. split; [split; reflexivity|]. split.
    + exists (convert_bbox page_height t). split; [reflexivity|].
      apply in_map, filter_In. split; [exact Ht|]. now rewrite Hs.
    + exists (final_table_data (table_df t)).
      split; [reflexivity|]. split; [exact Hne|].
      apply final_table_data_clean.
  - exists [], []. split; [reflexivity | constructor].
Qed.

(** X6. Whatever Camelot does, the table detector returns, leaving the
    world as it was.  Every item it returns is a table labelled with the
    tracker of the moment, its box is in the returned suppression list,
    and its data has at least one row, every row at least one cell, and
    no cell that is empty or has outer whitespace. *)
Theorem X6_table_items_are_clean (pdf_path : string) (page_num : nat)
    (page_height : Q) (w : World) :
  exists tables_data ignore_bboxes,
    extract_tables pdf_path page_num page_height w
    = (Ok (tables_data, ignore_bboxes), w)
    /\ Forall (fun it =>
                 item_type it = table
                 /\ stamped (self w) it
                 /\ (exists bbox, item_bbox it = Some bbox
                                  /\ In bbox ignore_bboxes)
                 /\ exists data,
                      item_table_data it = Some data
                      /\ data <> []
                      /\ Forall (fun row => row <> []
                                            /\ Forall clean_cell row) data)
              tables_data.
Proof. apply extract_tables_post. Qed.


End TablePostcondition.


(* ===================================================================== *)
(** * What the image detector and the text pass return *)
(* ===================================================================== *)

Section PassPostconditions.

Context {C : Collaborators}.

(** The image loop when every image has a box: one chart per box that is
    not empty, in image order, and those boxes. *)
Lemma images_loop_shown (page : Page) (imgs : list Image)
    (images_data : list Item) (ignore_bboxes : list Rect) (w : World) :
  Forall bbox_answered imgs ->
  images_loop page imgs images_data ignore_bboxes w
  = (Ok (images_data ++ map (chart_item (self w) page) (shown_boxes imgs),
         ignore_bboxes ++ shown_boxes imgs), w).
Proof.
  intros Himgs. revert images_data ignore_bboxes.
  induction Himgs as [|img imgs [r Hr] _ IH]; intros images_data ignore_bboxes.
  - simpl. unfold ret. now rewrite !app_nil_r.
  - unfold shown_boxes. cbn [images_loop flat_map]. fold (shown_boxes imgs).
    unfold bind, lift. rewrite Hr. destruct (is_empty r).
    + apply IH.
    + run. rewrite IH. now rewrite <- !app_assoc.
Qed.

(** The image loop raises at the first image without a box. *)
Lemma images_loop_raise (page : Page) (before after : list Image)
    (img : Image) (e : exn) (images_data : list Item)
    (ignore_bboxes : list Rect) (w : World) :
  Forall bbox_answered before ->
  image_bbox img = Raise e ->
  images_loop page (before ++ img :: after) images_data ignore_bboxes w
  = (Raise e, w).
Proof.
  intros Hbefore Himg. revert images_data ignore_bboxes.
  induction Hbefore as [|i before [r Hr] _ IH];
    intros images_data ignore_bboxes.
  - simpl. unfold bind, lift. now rewrite Himg.
  - simpl. unfold bind, lift. rewrite Hr. destruct (is_empty r).
    + apply IH.
    + run. apply IH.
Qed.

(** When the image loop returns, every image had a box. *)
Lemma images_loop_returns (page : Page) (imgs : list Image)
    (images_data : list Item) (ignore_bboxes : list Rect) (w w' : World)
    (r : list Item * list Rect) :
  images_loop page imgs images_data ignore_bboxes w = (Ok r, w') ->
  Forall bbox_answered imgs.
Proof.
  revert images_data ignore_bboxes.
  induction imgs as [|img imgs IH]; intros images_data ignore_bboxes H.
  - constructor.
  - simpl in H. unfold bind, lift in H.
    destruct (image_bbox img) as [b|e] eqn:Hb; [|discriminate].
    constructor; [now exists b|].
    destruct (is_empty b); [now apply IH in H|].
    revert H. run. intros H. now apply IH in H.
Qed.

(** Whenever the image detector returns, it has returned the charts of
    the boxes shown, and left the world as it was. *)
Lemma extract_images_returns (page : Page) (w w' : World)
    (images_data : list Item) (image_bboxes : list Rect) :
  extract_images page w = (Ok (images_data, image_bboxes), w') ->
  exists imgs,
    pg_get_images page = Ok imgs
    /\ Forall bbox_answered imgs
    /\ images_data = map (chart_item (self w) page) (shown_boxes imgs)
    /\ image_bboxes = shown_boxes imgs
    /\ w' = w.
Proof.
  unfold extract_images, bind, lift.
  destruct (pg_get_images page) as [imgs|e]; [|discriminate].
  intros H. exists imgs. split; [reflexivity|].
  pose proof (images_loop_returns _ _ _ _ _ H) as Hall.
  rewrite (images_loop_shown page [] [] w Hall) in H. simpl in H.
  injection H as <- <- <-. auto.
Qed.

(** X8. On a page whose images PyMuPDF lists with their boxes, the image
    detector returns one chart per image whose box is not empty, in image
    order, together with exactly those boxes, and leaves the world as it
    was.  Every chart carries its box, the tracker of the moment and the
    description naming the 1-based page number. *)
Theorem X8_one_chart_per_shown_image (page : Page) (imgs : list Image)
    (w : World) :
  pg_get_images page = Ok imgs ->
  Forall bbox_answered imgs ->
  exists images_data,
    extract_images page w = (Ok (images_data, shown_boxes imgs), w)
    /\ map item_bbox images_data = map Some (shown_boxes imgs)
    /\ Forall (fun it =>
                 item_type it = chart
                 /\ stamped (self w) it
                 /\ item_description it
                    = Some ("Chart or image found on page "
                            ++ str_of_nat (pg_number page + 1))%string)
              images_data.
Proof.
  intros Hget Hall. unfold extract_images, bind, lift. rewrite Hget.
  rewrite (images_loop_shown page [] [] w Hall). simpl.
  eexists. split; [reflexivity|]. split.
  - rewrite map_map. reflexivity.
  - apply Forall_forall. intros it Hin. apply in_map_iff in Hin.
    destruct Hin as (r & <- & _). repeat split.
Qed.

(** A property of every paragraph item is a property of the text pass. *)
Lemma text_blocks_loop_inv (P : Item -> Prop) (ignore_bboxes : list Rect) :
  (forall me b, kept ignore_bboxes b = true ->
                P (paragraph_item me b (extract_clean_text b))) ->
  forall blocks acc w items w',
    Forall P acc ->
    text_blocks_loop ignore_bboxes blocks acc w = (Ok items, w') ->
    Forall P items.
Proof.
  intros HP. induction blocks as [|b blocks IH]; intros acc w items w' Hacc H.
  - simpl in H. unfold ret in H. now injection H as <- _.
  - simpl in H. unfold bind in H. rewrite text_block_step_eq in H.
    destruct (kept ignore_bboxes b) eqn:Hk; simpl in H.
    + apply IH in H; [exact H|]. apply Forall_app. split; [exact Hacc|].
      constructor; [now apply HP | constructor].
    + now apply IH in H.
Qed.

Lemma extract_text_blocks_inv (P : Item -> Prop) (page : Page)
    (ignore_bboxes : list Rect) (w w' : World) (items : list Item) :
  (forall me b, kept ignore_bboxes b = true ->
                P (paragraph_item me b (extract_clean_text b))) ->
  extract_text_blocks page ignore_bboxes w = (Ok items, w') ->
  Forall P items.
Proof.
  intros HP. unfold extract_text_blocks, bind, lift.
  destruct (pg_get_text_blocks page) as [blocks|e]; [|discriminate].
  now apply text_blocks_loop_inv.
Qed.

Lemma kept_parts (ignore_bboxes : list Rect) (b : Block) :
  kept ignore_bboxes b = true ->
  is_text_block b = true
  /\ overlaps_any ignore_bboxes b = false
  /\ extract_clean_text b <> ""%string.
Proof.
  unfold kept. rewrite !andb_true_iff, negb_true_iff.
  intros [[Ht Ho] Hn]. repeat split; auto.
  destruct (extract_clean_text b); [discriminate | congruence].
Qed.

(** X9. Whatever the text pass returns is paragraphs only, each with its
    box and with a text that is not empty and has no outer whitespace,
    and with neither table data nor description. *)
Theorem X9_paragraph_items_have_text (page : Page)
    (ignore_bboxes : list Rect) (w w' : World) (items : list Item) :
  extract_text_blocks page ignore_bboxes w = (Ok items, w') ->
  Forall (fun it =>
            item_type it = paragraph
            /\ has_bbox it
            /\ (exists text, item_text it = Some text
                             /\ text <> ""%string
                             /\ PyStr.trimmed text = true)
            /\ item_table_data it = None
            /\ item_description it = None) items.
Proof.
  apply extract_text_blocks_inv. intros me b Hk.
  apply kept_parts in Hk. destruct Hk as (_ & _ & Hne).
  split; [reflexivity|]. split; [now exists (block_bbox b)|].
  split; [|split; reflexivity].
  exists (extract_clean_text b). split; [reflexivity|].
  split; [exact Hne | apply extract_clean_text_trimmed].
Qed.

(** The text pass over blocks none of which is a kept heading. *)
Lemma text_blocks_loop_no_heading (ignore_bboxes : list Rect)
    (blocks : list Block) (acc : list Item) (w : World) :
  Forall (fun b => kept ignore_bboxes b = true -> main_style b = Style_p)
         blocks ->
  exists items,
    text_blocks_loop ignore_bboxes blocks acc w = (Ok (acc ++ items), w)
    /\ Forall (stamped (self w)) items
    /\ map item_text items
       = map (fun b => Some (extract_clean_text b))
             (filter (kept ignore_bboxes) blocks).
Proof.
  intros Hall. revert acc.
  induction Hall as [|b blocks Hb _ IH]; intros acc.
  - exists []. simpl. unfold ret. rewrite app_nil_r. now repeat split.
  - cbn [text_blocks_loop filter]. unfold bind. rewrite text_block_step_eq.
    destruct (kept ignore_bboxes b) eqn:Hk; simpl.
    + rewrite (Hb eq_refl). simpl. rewrite world_eta.
      destruct (IH (acc ++ [paragraph_item (self w) b (extract_clean_text b)]))
        as (items & Hrun & Hst & Htexts).
      exists (paragraph_item (self w) b (extract_clean_text b) :: items).
      rewrite Hrun, <- app_assoc. split; [reflexivity|]. split.
      * constructor; [split; reflexivity | exact Hst].
      * simpl. now rewrite Htexts.
    + apply IH.
Qed.

(** X10. On a page none of whose kept blocks is styled as a heading, the
    text pass leaves the world, and so the tracker, exactly as it was, and
    the paragraphs it returns, one per kept block, all carry that
    tracker. *)
Theorem X10_no_heading_no_tracker_change (page : Page)
    (ignore_bboxes : list Rect) (blocks : list Block) (w : World) :
  pg_get_text_blocks page = Ok blocks ->
  Forall (fun b => kept ignore_bboxes b = true -> main_style b = Style_p)
         blocks ->
  exists items,
    extract_text_blocks page ignore_bboxes w = (Ok items, w)
    /\ Forall (stamped (self w)) items
    /\ map item_text items
       = map (fun b => Some (extract_clean_text b))
             (filter (kept ignore_bboxes) blocks).
Proof.
  intros Hget Hall. rewrite (extract_text_blocks_eq _ _ w Hget).
  destruct (text_blocks_loop_no_heading ignore_bboxes [] w Hall)
    as (items & Hrun & Hst & Htexts).
  exists items. now repeat split.
Qed.

(** X11. A kept heading-major block labels what follows it: when the
    blocks after it hold no kept heading, the pass ends with the section
    at the heading's text and the subsection at null, and the heading and
    the paragraphs of all the kept blocks after it carry exactly that. *)
Theorem X11_major_heading_labels_what_follows (page : Page)
    (ignore_bboxes : list Rect) (before after : list Block) (h : Block)
    (w : World) :
  pg_get_text_blocks page = Ok (before ++ h :: after) ->
  kept ignore_bboxes h = true ->
  main_style h = Style_h1 ->
  Forall (fun b => kept ignore_bboxes b = true -> main_style b = Style_p)
         after ->
  let me := {| current_section := extract_clean_text h;
               current_sub_section := None |} in
  exists items_before items_after w',
    extract_text_blocks page ignore_bboxes w
    = (Ok (items_before
             ++ paragraph_item me h (extract_clean_text h) :: items_after),
       w')
    /\ self w' = me
    /\ Forall (stamped me) items_after
    /\ map item_text items_before
       = map (fun b => Some (extract_clean_text b))
             (filter (kept ignore_bboxes) before)
    /\ map item_text items_after
       = map (fun b => Some (extract_clean_text b))
             (filter (kept ignore_bboxes) after).
Proof.
  intros Hget Hk Hs Hafter me. rewrite (extract_text_blocks_eq _ _ w Hget).
  rewrite text_blocks_loop_app.
  destruct (text_blocks_loop_ok ignore_bboxes before [] w)
    as (items_before & w1 & Hrun & _ & Hmap).
  rewrite Hrun. simpl. unfold bind. rewrite text_block_step_eq, Hk, Hs.
  simpl. fold me.
  destruct (text_blocks_loop_no_heading ignore_bboxes
              (items_before ++ [paragraph_item me h (extract_clean_text h)])
              {| self := me; doc_handle := doc_handle w1 |} Hafter)
    as (items_after & Hrun2 & Hst & Htexts).
  exists items_before, items_after, {| self := me; doc_handle := doc_handle w1 |}.
  rewrite Hrun2, <- app_assoc. simpl.
  split; [reflexivity|]. split; [reflexivity|]. split; [exact Hst|].
  split; [|exact Htexts].
  apply (f_equal (map (fun t => snd t))) in Hmap.
  rewrite !map_map in Hmap. simpl in Hmap. exact Hmap.
Qed.

End PassPostconditions.

(* ===================================================================== *)
(** * What a page and a document come to *)
(* ===================================================================== *)

Section Outcomes.

Context {C : Collaborators}.

(** What has happened when [parse_page] returns. *)
Lemma parse_page_returns (d : Document) (page_num : nat) (w w' : World)
    (out : list Item) :
  parse_page d page_num w = (Ok out, w') ->
  exists page tables_data table_bboxes imgs text_content,
    nth_error (doc_pages d) page_num = Some page
    /\ extract_tables (doc_name d) page_num (pg_rect_height page) w
       = (Ok (tables_data, table_bboxes), w)
    /\ pg_get_images page = Ok imgs
    /\ Forall bbox_answered imgs
    /\ extract_text_blocks page (table_bboxes ++ shown_boxes imgs) w
       = (Ok text_content, w')
    /\ out = map del_bbox
               (sorted sort_key
                  (tables_data
                     ++ map (chart_item (self w) page) (shown_boxes imgs)
                     ++ text_content)).
Proof.
  unfold parse_page, doc_getitem.
  destruct (nth_error (doc_pages d) page_num) as [page|]; [|discriminate].
  rewrite (bind_ok _ _ w (a := page) eq_refl).
  destruct (extract_tables_total (doc_name d) page_num (pg_rect_height page) w)
    as (tables_data & table_bboxes & Ht & _).
  rewrite (bind_ok _ _ w Ht).
  destruct (extract_images page w) as [[[images_data image_bboxes]|e] w1] eqn:Ei.
  - destruct (extract_images_returns _ _ Ei)
      as (imgs & Hget & Hall & -> & -> & ->).
    rewrite (bind_ok _ _ w Ei).
    destruct (extract_text_blocks page (table_bboxes ++ shown_boxes imgs) w)
      as [[text_content|e] w2] eqn:Ex.
    + rewrite (bind_ok _ _ w Ex). unfold ret. intros [= <- <-].
      exists page, tables_data, table_bboxes, imgs, text_content. auto 10.
    + rewrite (bind_raise _ _ w Ex). discriminate.
  - rewrite (bind_raise _ _ w Ei). discriminate.
Qed.

(** X12. Tables and charts are labelled with the tracker the page was
    entered with: whatever headings the page holds, and wherever they end
    up in the sorted output, every item of the page that is not a
    paragraph carries the section and subsection left by the pages
    before. *)
Theorem X12_tables_and_charts_labelled_at_page_entry (d : Document)
    (page_num : nat) (w w' : World) (out : list Item) :
  parse_page d page_num w = (Ok out, w') ->
  Forall (fun it => item_type it <> paragraph -> stamped (self w) it) out.
Proof.
  intros Hrun. destruct (parse_page_returns _ _ _ Hrun)
    as (page & tables_data & table_bboxes & imgs & text_content
        & _ & Ht & _ & _ & Hx & ->).
  destruct (extract_tables_post (doc_name d) page_num (pg_rect_height page) w)
    as (tables_data' & table_bboxes' & Ht' & Htables).
  rewrite Ht in Ht'. injection Ht' as <- <-.
  assert (Hparas : Forall (fun it => item_type it = paragraph) text_content).
  { eapply extract_text_blocks_inv; [|exact Hx]. intros me b _. reflexivity. }
  apply Forall_forall. intros it Hin Hnp. apply in_map_iff in Hin.
  destruct Hin as (it0 & <- & Hin0).
  apply (Permutation_in _ (sorted_perm sort_key _)) in Hin0.
  rewrite !in_app_iff in Hin0. destruct Hin0 as [H | [H | H]].
  - rewrite Forall_forall in Htables. destruct (Htables it0 H) as (_ & Hst & _).
    exact Hst.
  - apply in_map_iff in H. destruct H as (r & <- & _). split; reflexivity.
  - rewrite Forall_forall in Hparas. exfalso. apply Hnp.
    simpl. exact (Hparas it0 H).
Qed.

(** X13. What a page returns does not overlap: when [parse_page] returns,
    its output is the sorted, box-free form of the tables, charts and
    paragraphs its three passes returned, and no paragraph's box
    intersects the box of a table or of a chart of the page. *)
Theorem X13_paragraphs_clear_of_tables_and_charts (d : Document)
    (page_num : nat) (w w' : World) (out : list Item) :
  parse_page d page_num w = (Ok out, w') ->
  exists page tables_data table_bboxes images_data image_bboxes text_content,
    nth_error (doc_pages d) page_num = Some page
    /\ extract_tables (doc_name d) page_num (pg_rect_height page) w
       = (Ok (tables_data, table_bboxes), w)
    /\ extract_images page w = (Ok (images_data, image_bboxes), w)
    /\ extract_text_blocks page (table_bboxes ++ image_bboxes) w
       = (Ok text_content, w')
    /\ out = map del_bbox
               (sorted sort_key (tables_data ++ images_data ++ text_content))
    /\ forall it para b c,
         In it (tables_data ++ images_data) ->
         In para text_content ->
         item_bbox it = Some b ->
         item_bbox para = Some c ->
         intersects b c = false.
Proof.
  intros Hrun. destruct (parse_page_returns _ _ _ Hrun)
    as (page & tables_data & table_bboxes & imgs & text_content
        & Hpage & Ht & Hget & Hall & Hx & ->).
  destruct (extract_tables_post (doc_name d) page_num (pg_rect_height page) w)
    as (tables_data' & table_bboxes' & Ht' & Htables).
  rewrite Ht in Ht'. injection Ht' as <- <-.
  exists page, tables_data, table_bboxes,
    (map (chart_item (self w) page) (shown_boxes imgs)), (shown_boxes imgs),
    text_content.
  split; [exact Hpage|]. split; [exact Ht|]. split.
  { unfold extract_images, bind, lift. rewrite Hget.
    now rewrite (images_loop_shown page [] [] w Hall). }
  split; [exact Hx|]. split; [reflexivity|].
  assert (Hparas :
            Forall (fun it => forall c bbox,
                        item_bbox it = Some c ->
                        In bbox (table_bboxes ++ shown_boxes imgs) ->
                        intersects bbox c = false) text_content).
  { eapply extract_text_blocks_inv; [|exact Hx].
    intros me blk Hk c bbox Hc Hin. simpl in Hc. injection Hc as <-.
    apply kept_parts in Hk. destruct Hk as (_ & Hnone & _).
    rewrite overlaps_none_iff in Hnone. now apply Hnone. }
  intros it para b c Hit Hpara Hb Hc.
  rewrite Forall_forall in Hparas. apply (Hparas para Hpara c b Hc).
  apply in_app_iff. apply in_app_iff in Hit. destruct Hit as [H | H].
  - left. rewrite Forall_forall in Htables.
    destruct (Htables it H) as (_ & _ & (bbox & Hbb & Hin) & _).
    congruence.
  - right. apply in_map_iff in H. destruct H as (r & <- & Hr).
    simpl in Hb. now injection Hb as <-.
Qed.

(** A page on which PyMuPDF fails makes [parse_page] raise, the world
    left as it was. *)
Lemma parse_page_fails (d : Document) (page_num : nat) (page : Page)
    (e : exn) (w : World) :
  nth_error (doc_pages d) page_num = Some page ->
  page_fails page e ->
  parse_page d page_num w = (Raise e, w).
Proof.
  intros Hpage Hfail. unfold parse_page, doc_getitem. rewrite Hpage.
  rewrite (bind_ok _ _ w (a := page) eq_refl).
  destruct (extract_tables_total (doc_name d) page_num (pg_rect_height page) w)
    as (tables_data & table_bboxes & Ht & _).
  rewrite (bind_ok _ _ w Ht).
  destruct Hfail as [Hget | [(before & img & after & Hget & Hb & Himg)
                            | (imgs & Hget & Hall & Htext)]].
  - apply bind_raise. unfold extract_images, bind, lift. now rewrite Hget.
  - apply bind_raise. unfold extract_images, bind, lift. rewrite Hget.
    now apply images_loop_raise.
  - destruct (extract_images_ok page w Hget Hall)
      as (images_data & image_bboxes & Hi & _).
    rewrite (bind_ok _ _ w Hi). apply bind_raise.
    unfold extract_text_blocks, bind, lift. now rewrite Htext.
Qed.

(** A page on which PyMuPDF answers makes [parse_page] return. *)
Lemma parse_page_answers (d : Document) (page_num : nat) (page : Page)
    (w : World) :
  nth_error (doc_pages d) page_num = Some page ->
  page_answers page ->
  exists out w', parse_page d page_num w = (Ok out, w').
Proof.
  intros Hpage (imgs & blocks & Hget & Hall & Htext).
  destruct (extract_tables_total (doc_name d) page_num (pg_rect_height page) w)
    as (tables_data & table_bboxes & Ht & _).
  destruct (extract_images_ok page w Hget Hall)
    as (images_data & image_bboxes & Hi & _).
  destruct (extract_text_blocks_ok page (table_bboxes ++ image_bboxes) w Htext)
    as (text_content & w' & Hx & _).
  eexists _, w'.
  exact (parse_page_eq d Hpage Ht Hi Hx).
Qed.

(** The page loop over page numbers whose pages all answer. *)
Lemma parse_pages_answers (d : Document) (nums : list nat) :
  (forall n, In n nums ->
             exists page, nth_error (doc_pages d) n = Some page
                          /\ page_answers page) ->
  forall out w,
    exists out' w',
      parse_pages d nums out w = (Ok out', w')
      /\ map page_number out'
         = map page_number out ++ map (fun n => n + 1)%nat nums.
Proof.
  induction nums as [|n nums IH]; intros Hall out w.
  - exists out, w. simpl. unfold ret. now rewrite app_nil_r.
  - destruct (Hall n (in_eq _ _)) as (page & Hpage & Hans).
    destruct (parse_page_answers d n w Hpage Hans) as (content & w1 & Hrun).
    simpl. rewrite (bind_ok _ _ w Hrun).
    destruct (IH (fun m Hm => Hall m (in_cons _ _ _ Hm))
                 (out ++ [ {| page_number := n + 1; content := content |} ])
                 w1) as (out' & w' & Hrest & Hnums).
    exists out', w'. split; [exact Hrest|].
    rewrite Hnums, map_app, <- app_assoc. reflexivity.
Qed.

Lemma pages_in_range (pages_ : list Page) (P : Page -> Prop) (k : nat) :
  Forall P (firstn k pages_) ->
  (k <= List.length pages_)%nat ->
  forall n, In n (seq 0 k) ->
            exists page, nth_error pages_ n = Some page /\ P page.
Proof.
  intros Hall Hk n Hn. apply in_seq in Hn.
  destruct (nth_error pages_ n) as [page|] eqn:E.
  - exists page. split; [reflexivity|].
    rewrite Forall_forall in Hall. apply Hall.
    apply nth_error_In with n. rewrite nth_error_firstn.
    destruct (Nat.ltb_spec n k); [exact E | lia].
  - apply nth_error_None in E. lia.
Qed.

(** X14. A document of which PyMuPDF answers on every page is parsed,
    whatever Camelot does on any page: [parse] returns a document with
    the path it was given, the page count, and one page per source page
    numbered 1, 2, ... in order, and the handle ends closed. *)
Theorem X14_document_parsed_when_pymupdf_answers (pdf_path : string)
    (d : Document) (w : World) :
  os_path_exists pdf_path = true ->
  fitz_open pdf_path = Ok d ->
  Forall page_answers (doc_pages d) ->
  exists out w',
    parse pdf_path w = (Ok (Some out), w')
    /\ file_path out = pdf_path
    /\ total_pages out = List.length (doc_pages d)
    /\ map page_number (pages out) = seq 1 (List.length (doc_pages d))
    /\ doc_handle w' = Closed.
Proof.
  intros Hex Hopen Hall. rewrite (parse_opened pdf_path w Hex Hopen).
  assert (Hrange : forall n, In n (seq 0 (List.length (doc_pages d))) ->
                     exists page, nth_error (doc_pages d) n = Some page
                                  /\ page_answers page).
  { apply pages_in_range; [|lia]. now rewrite firstn_all. }
  destruct (parse_pages_answers d _ Hrange []
              {| self := self w; doc_handle := Opened |})
    as (out & w' & Hrun & Hnums).
  rewrite Hrun. eexists _, _. split; [reflexivity|]. simpl.
  repeat split. rewrite Hnums. simpl.
  rewrite <- seq_shift. apply map_ext. intros n. lia.
Qed.

(** X15. The first page on which PyMuPDF fails ends the parse: when the
    pages before it all answer, [parse] raises the exception of that page,
    no document is returned, not even for the pages already done, and the
    handle is left open. *)
Theorem X15_first_failing_page_aborts_parse (pdf_path : string)
    (d : Document) (before after : list Page) (page : Page) (e : exn)
    (w : World) :
  os_path_exists pdf_path = true ->
  fitz_open pdf_path = Ok d ->
  doc_pages d = before ++ page :: after ->
  Forall page_answers before ->
  page_fails page e ->
  exists w', parse pdf_path w = (Raise e, w') /\ doc_handle w' = Opened.
Proof.
  intros Hex Hopen Hpages Hbefore Hfail.
  rewrite (parse_opened pdf_path w Hex Hopen).
  assert (Hlen : List.length (doc_pages d)
                 = (List.length before + S (List.length after))%nat).
  { rewrite Hpages, length_app. reflexivity. }
  rewrite Hlen, seq_app, parse_pages_app.
  assert (Hrange : forall n, In n (seq 0 (List.length before)) ->
                     exists pg, nth_error (doc_pages d) n = Some pg
                                /\ page_answers pg).
  { apply pages_in_range; [|lia].
    rewrite Hpages, firstn_app, firstn_all, Nat.sub_diag. simpl.
    now rewrite app_nil_r. }
  destruct (parse_pages_answers d _ Hrange []
              {| self := self w; doc_handle := Opened |})
    as (out & w1 & Hrun & _).
  pose proof (parse_pages_handle d (seq 0 (List.length before)) []
                {| self := self w; doc_handle := Opened |}) as Hh.
  rewrite Hrun in *. simpl in Hh. simpl.
  assert (Hpage : nth_error (doc_pages d) (List.length before) = Some page).
  { rewrite Hpages, nth_error_app2, Nat.sub_diag by lia. reflexivity. }
  rewrite (bind_raise _ _ w1 (parse_page_fails d _ w1 Hpage Hfail)).
  exists w1. now split.
Qed.

(** X16. [parse] returns [None] exactly when the path does not exist or
    the file does not open, and then the world is untouched: the tracker
    is as it was and no handle has been opened. *)
Theorem X16_none_iff_missing_or_unopenable (pdf_path : string) (w : World) :
  (os_path_exists pdf_path = false -> parse pdf_path w = (Ok None, w))
  /\ (forall e, fitz_open pdf_path = Raise e -> parse pdf_path w = (Ok None, w))
  /\ (forall w', parse pdf_path w = (Ok None, w') ->
                 w' = w
                 /\ (os_path_exists pdf_path = false
                     \/ exists e, fitz_open pdf_path = Raise e)).
Proof.
  split; [|split].
  - intros H. unfold parse. now rewrite H.
  - intros e H. unfold parse. rewrite H.
    now destruct (os_path_exists pdf_path).
  - intros w' H. destruct (os_path_exists pdf_path) eqn:Hex.
    + destruct (fitz_open pdf_path) as [d|e] eqn:Hopen.
      * rewrite (parse_opened pdf_path w Hex Hopen) in H.
        destruct (parse_pages d _ [] _) as [[out|e] w1]; discriminate.
      * unfold parse in H. rewrite Hex, Hopen in H. simpl in H.
        unfold ret in H. injection H as <-. split; [reflexivity|]. eauto.
    + unfold parse in H. rewrite Hex in H. simpl in H.
      unfold ret in H. injection H as <-. auto.
Qed.

End Outcomes.

(* ===================================================================== *)
(** * The two scripts *)
(* ===================================================================== *)

Section Scripts.

Context {C : Collaborators} {S : Shell}.

(** X17. [main] writes at most one file, at the output path, and only
    the dump of a document that [parse_pdf] has returned whole.  For an
    input path that does not exist it writes nothing, prints that it could
    not extract and returns normally; when [parse_pdf] raises, [main]
    raises with nothing written; when a document is returned and the
    output opens, the file is written and its path printed. *)
Theorem X17_main_writes_only_a_parsed_document (input output : string) :
  (forall path content,
     In (Written path content) (snd (main input output)) ->
     path = output
     /\ fst (main input output) = Ok tt
     /\ exists doc, fst (parse_pdf input) = Ok (Some doc)
                    /\ content = json_dump doc 4)
  /\ (os_path_exists input = false ->
      main input output
      = (Ok tt, [ Printed "Could not extract data from the PDF." ]))
  /\ (forall e, fst (parse_pdf input) = Raise e ->
                main input output = (Raise e, []))
  /\ (forall doc, fst (parse_pdf input) = Ok (Some doc) ->
                  open_for_writing output = Ok tt ->
                  main input output
                  = (Ok tt,
                     [ Written output (json_dump doc 4);
                       Printed ("Successfully created the JSON output at: "
                                ++ output)%string ])).
Proof.
  split; [|split; [|split]].
  - intros path content. unfold main.
    destruct (fst (parse_pdf input)) as [[doc|]|e]; simpl.
    + destruct (open_for_writing output) as [[]|e]; simpl.
      * intros [H | [H | []]]; [|discriminate]. injection H as <- <-.
        split; [reflexivity|]. split; [reflexivity|]. now exists doc.
      * intros [].
    + intros [H | []]. discriminate.
    + intros [].
  - intros H. unfold main, parse_pdf, parse. now rewrite H.
  - intros e H. unfold main. now rewrite H.
  - intros doc H Hopen. unfold main. now rewrite H, Hopen.
Qed.


End Scripts.

(* ===================================================================== *)
(** * The further properties at sample inputs *)
(* ===================================================================== *)

(** The one image of [mixed_page]. *)
Lemma X8_one_chart_per_shown_image_witness :
  exists images_data,
    @extract_images mixed_collaborators mixed_page fresh_world
    = (Ok (images_data, [ mkRect 110 20 180 30 ]), fresh_world)
    /\ map item_bbox images_data = [ Some (mkRect 110 20 180 30) ].
Proof.
  assert (Himgs : Forall bbox_answered [ mkImage (Ok (mkRect 110 20 180 30)) ]).
  { constructor; [now exists (mkRect 110 20 180 30) | constructor]. }
  destruct (@X8_one_chart_per_shown_image mixed_collaborators mixed_page _
              fresh_world eq_refl Himgs)
    as (images_data & Hrun & Hboxes & _).
  exists images_data. split; [exact Hrun | exact Hboxes].
Defined.

(** The four example blocks. *)
Lemma X9_paragraph_items_have_text_witness :
  Forall (fun it => item_type it = paragraph)
    (match fst (@extract_text_blocks (serving two_page_doc)
                  (text_page 0 intro_blocks) [] fresh_world) with
     | Ok items => items
     | Raise _ => []
     end).
Proof.
  pose proof (@X9_paragraph_items_have_text (serving two_page_doc)
                (text_page 0 intro_blocks) [] fresh_world
                (snd (@extract_text_blocks (serving two_page_doc)
                        (text_page 0 intro_blocks) [] fresh_world))
                (match fst (@extract_text_blocks (serving two_page_doc)
                              (text_page 0 intro_blocks) [] fresh_world) with
                 | Ok items => items
                 | Raise _ => []
                 end) eq_refl) as H.
  apply (Forall_impl _ (fun it Hit => proj1 Hit) H).
Defined.

(** The second page of [two_page_doc], entered under "Intro". *)
Lemma X10_no_heading_no_tracker_change_witness :
  exists items,
    @extract_text_blocks (serving two_page_doc)
      (text_page 1 [ one_span_block (row_box 0) "body" 10 "Times-Roman" ])
      []
      {| self := {| current_section := "Intro"; current_sub_section := None |};
         doc_handle := Opened |}
    = (Ok items,
       {| self := {| current_section := "Intro"; current_sub_section := None |};
          doc_handle := Opened |})
    /\ Forall (stamped {| current_section := "Intro";
                          current_sub_section := None |}) items
    /\ map item_text items = [ Some "body"%string ].
Proof.
  apply (@X10_no_heading_no_tracker_change (serving two_page_doc)
           (text_page 1 [ one_span_block (row_box 0) "body" 10 "Times-Roman" ])
           [] _
           {| self := {| current_section := "Intro";
                         current_sub_section := None |};
              doc_handle := Opened |} eq_refl).
  constructor; [intros _; reflexivity | constructor].
Defined.

(** The first page of [two_page_doc]: "preface", then the heading. *)
Lemma X11_major_heading_labels_what_follows_witness :
  exists items_before items_after w',
    @extract_text_blocks (serving two_page_doc)
      (text_page 0 [ one_span_block (row_box 0) "preface" 10 "Times-Roman";
                     one_span_block (row_box 1) "Intro" 18 "Times-Roman" ])
      [] fresh_world
    = (Ok (items_before
             ++ paragraph_item {| current_section := "Intro";
                                  current_sub_section := None |}
                  (one_span_block (row_box 1) "Intro" 18 "Times-Roman")
                  "Intro"
             :: items_after), w')
    /\ self w' = {| current_section := "Intro"; current_sub_section := None |}.
Proof.
  destruct (@X11_major_heading_labels_what_follows (serving two_page_doc)
              (text_page 0
                 [ one_span_block (row_box 0) "preface" 10 "Times-Roman";
                   one_span_block (row_box 1) "Intro" 18 "Times-Roman" ])
              []
              [ one_span_block (row_box 0) "preface" 10 "Times-Roman" ]
              []
              (one_span_block (row_box 1) "Intro" 18 "Times-Roman")
              fresh_world eq_refl eq_refl eq_refl (Forall_nil _))
    as (items_before & items_after & w' & Hrun & Hself & _).
  exists items_before, items_after, w'. split; [exact Hrun | exact Hself].
Defined.

(** [mixed_page]: the table and the chart keep "Default" under the
    heading "Results". *)
Lemma X12_tables_and_charts_labelled_at_page_entry_witness :
  Forall (fun it => item_type it <> paragraph -> stamped PDFParser_init it)
    (match fst (@parse_page mixed_collaborators mixed_doc 0 fresh_world) with
     | Ok out => out
     | Raise _ => []
     end).
Proof.
  apply (@X12_tables_and_charts_labelled_at_page_entry mixed_collaborators
           mixed_doc 0%nat fresh_world
           (snd (@parse_page mixed_collaborators mixed_doc 0 fresh_world))).
  reflexivity.
Defined.

Lemma X13_paragraphs_clear_of_tables_and_charts_witness :
  exists tables_data images_data text_content,
    match fst (@parse_page mixed_collaborators mixed_doc 0 fresh_world) with
    | Ok out => out
    | Raise _ => []
    end
    = map del_bbox
        (sorted sort_key (tables_data ++ images_data ++ text_content)).
Proof.
  destruct (@X13_paragraphs_clear_of_tables_and_charts mixed_collaborators
              mixed_doc 0%nat fresh_world
              (snd (@parse_page mixed_collaborators mixed_doc 0 fresh_world))
              (match fst (@parse_page mixed_collaborators mixed_doc 0
                            fresh_world) with
               | Ok out => out
               | Raise _ => []
               end) eq_refl)
    as (page & tables_data & table_bboxes & images_data & image_bboxes
        & text_content & _ & _ & _ & _ & Hout & _).
  exists tables_data, images_data, text_content. exact Hout.
Defined.

Lemma text_page_answers (number : nat) (blocks : list Block) :
  page_answers (text_page number blocks).
Proof. exists [], blocks. repeat split. constructor. Qed.

(** [two_page_doc], parsed whole. *)
Lemma X14_document_parsed_when_pymupdf_answers_witness :
  exists out w',
    @parse (serving two_page_doc) "report.pdf" fresh_world
    = (Ok (Some out), w')
    /\ map page_number (pages out) = [ 1; 2 ]%nat
    /\ doc_handle w' = Closed.
Proof.
  destruct (@X14_document_parsed_when_pymupdf_answers (serving two_page_doc)
              "report.pdf"%string two_page_doc fresh_world eq_refl eq_refl)
    as (out & w' & Hrun & _ & _ & Hnums & Hclosed).
  - repeat constructor; apply text_page_answers.
  - exists out, w'. split; [exact Hrun|]. split; [exact Hnums | exact Hclosed].
Defined.

(** [damaged_doc], given up at its second page. *)
Lemma X15_first_failing_page_aborts_parse_witness :
  exists w',
    @parse (serving damaged_doc) "damaged.pdf" fresh_world
    = (Raise (Exception "RuntimeError: cannot read page text"), w')
    /\ doc_handle w' = Opened.
Proof.
  apply (@X15_first_failing_page_aborts_parse (serving damaged_doc)
           "damaged.pdf"%string damaged_doc
           [ text_page 0
               [ one_span_block (row_box 0) "Intro" 18 "Times-Roman" ] ]
           []
           {| pg_number := 1;
              pg_rect_height := 842;
              pg_get_images := Ok [];
              pg_get_text_blocks :=
                Raise (Exception "RuntimeError: cannot read page text") |}
           (Exception "RuntimeError: cannot read page text") fresh_world
           eq_refl eq_refl eq_refl).
  - repeat constructor; apply text_page_answers.
  - right; right. exists []. repeat split. constructor.
Defined.

(** A path that is not there, and a file that does not open. *)
Lemma X16_none_iff_missing_or_unopenable_witness :
  @parse nothing_there "absent.pdf" fresh_world = (Ok None, fresh_world)
  /\ @parse unopenable "broken.pdf" fresh_world = (Ok None, fresh_world).
Proof.
  split.
  - destruct (@X16_none_iff_missing_or_unopenable nothing_there
                "absent.pdf"%string fresh_world) as (Hmissing & _).
    apply Hmissing. reflexivity.
  - destruct (@X16_none_iff_missing_or_unopenable unopenable
                "broken.pdf"%string fresh_world) as (_ & Hbroken & _).
    apply (Hbroken (Exception "FileDataError: cannot open broken document")).
    reflexivity.
Defined.

Lemma X17_main_writes_only_a_parsed_document_witness :
  @main nothing_there sample_shell "absent.pdf" "out.json"
  = (Ok tt, [ Printed "Could not extract data from the PDF." ])
  /\ @main (serving two_page_doc) sample_shell "report.pdf" "out.json"
     = (Ok tt,
        [ Written "out.json" "report.pdf";
          Printed "Successfully created the JSON output at: out.json" ])
  /\ @main (serving damaged_doc) sample_shell "damaged.pdf" "out.json"
     = (Raise (Exception "RuntimeError: cannot read page text"), []).
Proof.
  split; [|split].
  - destruct (@X17_main_writes_only_a_parsed_document nothing_there
                sample_shell "absent.pdf"%string "out.json"%string)
      as (_ & Hmissing & _).
    apply Hmissing. reflexivity.
  - destruct (@X17_main_writes_only_a_parsed_document (serving two_page_doc)
                sample_shell "report.pdf"%string "out.json"%string)
      as (_ & _ & _ & Hwritten).
    assert (E : exists doc,
                fst (@parse_pdf (serving two_page_doc) "report.pdf")
                = Ok (Some doc)
                /\ @json_dump sample_shell doc 4 = "report.pdf"%string).
    { eexists. split; vm_compute; reflexivity. }
    destruct E as (doc & Hdoc & Hdump).
    rewrite (Hwritten doc Hdoc eq_refl), Hdump. reflexivity.
  - destruct (@X17_main_writes_only_a_parsed_document (serving damaged_doc)
                sample_shell "damaged.pdf"%string "out.json"%string)
      as (_ & _ & Hraise & _).
    apply Hraise. vm_compute. reflexivity.
Defined.

